(** * Google Gemini TTS engine: a shallow embedding of
      [custom_components/google_tts/openaitts_engine.py]

    The engine is a single Python class, [OpenAITTSEngine], with a
    constructor, the method [get_tts], a no-op [close] and the static method
    [get_supported_langs].  The embedding keeps the source's shape:

    - the vendor objects ([types.GenerateContentConfig], the response with
      its candidates, contents, parts and inline data) are records whose
      optional attributes are [option] fields;
    - Python exceptions are an inductive type, and a method is a computation
      in a small state-and-exception monad [M] over a [State] made of the
      engine object ([self]), the behaviour of the remote service and the
      trace of observable effects (remote calls, log records, sleeps);
    - the [while True] retry loop is a well-founded recursion on
      [max_retries - attempt];
    - [base64.b64decode] is modelled after CPython's decoder in its default,
      non-strict mode, and shown to invert the encoder of RFC 4648. *)

From Stdlib Require Import String Ascii List ZArith Lia Bool Arith.
From Stdlib Require Import Floats.SpecFloat.
From Stdlib Require Import Strings.Byte.
From Stdlib Require Import DecimalString.
From Equations Require Import Equations.
Import ListNotations.

Local Open Scope string_scope.

(** ** Python values *)

(** A Python [float] is an IEEE 754 binary64 value. *)
Definition float : Type := spec_float.

(** [bytes] objects. *)
Definition bytes : Type := list byte.

(** The exceptions of the model are the instances of Python's [Exception]
    class, the ones an [except Exception] clause catches; [KeyboardInterrupt],
    [SystemExit] and the like, which derive from [BaseException] alone, are
    not modelled.  [cause] is the [__cause__] set by [raise ... from exc];
    [VendorError] stands for any exception class of the vendor's client. *)
#[warnings="-register-all"]
Inductive PyException : Type :=
| HomeAssistantError (msg : string) (cause : option PyException)
| TypeError (msg : string)
| ValueError (msg : string)
| BinasciiError (msg : string)
| VendorError (cls : string) (msg : string).

(** The newline of the f-string of line 81. *)
Definition newline : string := String "010"%char EmptyString.

(** Truth value of an optional string in a condition: [None] and the empty
    string are false, any other string is true. *)
Definition truthy (o : option string) : bool :=
  match o with
  | None => false
  | Some s => negb (String.eqb s "")
  end.

(** ** [base64.b64decode]

    [base64.b64decode(s)] with its default arguments encodes a [str]
    argument to ASCII and hands it to [binascii.a2b_base64] in non-strict
    mode (CPython 3.11 and later): characters outside the alphabet are
    skipped, a complete pad sequence stops the decoding, and a quad left
    open at the end of the input is an error. *)
Module Base64.

Local Open Scope Z_scope.

Definition BASE64_PAD : ascii := "="%char.

(** [table_a2b_base64]: the value of an alphabet character, and 255 (the
    table's [-1] stored in an [unsigned char]) for any other. *)
Definition table_a2b_base64 (c : ascii) : Z :=
  let n := Z.of_nat (nat_of_ascii c) in
  if (65 <=? n) && (n <=? 90) then n - 65
  else if (97 <=? n) && (n <=? 122) then n - 71
  else if (48 <=? n) && (n <=? 57) then n + 4
  else if n =? 43 then 62
  else if n =? 47 then 63
  else 255.

(** A store into an [unsigned char]. *)
Definition u8 (z : Z) : byte :=
  match Byte.of_N (Z.to_N (z mod 256)) with
  | Some b => b
  | None => "000"%byte
  end.

(** How the scan of the input ends: at a complete pad sequence
    ([goto done]) or at the end of the input, with the position in the
    current quad. *)
Inductive scan : Type :=
| Done (bin_data : bytes)
| EndOfInput (quad_pos : Z) (bin_data : bytes).

(** The [for] loop of [binascii.a2b_base64] with [strict_mode = 0]. *)
Fixpoint a2b_loop (ascii_data : string) (quad_pos leftchar pads : Z)
         (bin_data : bytes) : scan :=
  match ascii_data with
  | EmptyString => EndOfInput quad_pos bin_data
  | String this_ch rest =>
      if Ascii.eqb this_ch BASE64_PAD then
        if (2 <=? quad_pos) && (4 <=? quad_pos + (pads + 1))
        then Done bin_data
        else a2b_loop rest quad_pos leftchar
                      (if 2 <=? quad_pos then pads + 1 else pads) bin_data
      else
        let this_ch := table_a2b_base64 this_ch in
        if 64 <=? this_ch then a2b_loop rest quad_pos leftchar pads bin_data
        else
          match quad_pos with
          | 0 => a2b_loop rest 1 this_ch 0 bin_data
          | 1 => a2b_loop rest 2 (Z.land this_ch 15) 0
                   (bin_data ++ [u8 (Z.lor (Z.shiftl leftchar 2)
                                           (Z.shiftr this_ch 4))])%list
          | 2 => a2b_loop rest 3 (Z.land this_ch 3) 0
                   (bin_data ++ [u8 (Z.lor (Z.shiftl leftchar 4)
                                           (Z.shiftr this_ch 2))])%list
          | _ => a2b_loop rest 0 0 0
                   (bin_data ++ [u8 (Z.lor (Z.shiftl leftchar 6) this_ch)])%list
          end
  end.

Definition decimal (n : nat) : string :=
  NilEmpty.string_of_uint (Nat.to_uint n).

Definition a2b_base64 (ascii_data : string) : PyException + bytes :=
  match a2b_loop ascii_data 0 0 0 [] with
  | Done bin_data => inr bin_data
  | EndOfInput quad_pos bin_data =>
      if quad_pos =? 0 then inr bin_data
      else if quad_pos =? 1 then
        inl (BinasciiError
               ("Invalid base64-encoded string: number of data characters ("
                ++ decimal (length bin_data / 3 * 4 + 1)%nat
                ++ ") cannot be 1 more than a multiple of 4"))
      else inl (BinasciiError "Incorrect padding")
  end.

Definition is_ascii (s : string) : bool :=
  forallb (fun c => (nat_of_ascii c <? 128)%nat) (list_ascii_of_string s).

(** [base64.b64decode(s)]; [None] stands for an argument that is not a
    string. *)
Definition b64decode (s : option string) : PyException + bytes :=
  match s with
  | None =>
      inl (TypeError
             "argument should be a bytes-like object or ASCII string, not 'NoneType'")
  | Some s =>
      if is_ascii s then a2b_base64 s
      else inl (ValueError "string argument should contain only ASCII characters")
  end.

(** The encoder of RFC 4648, section 4, which [b64decode] inverts: three
    bytes give four characters of the alphabet, and a last group of one or
    two bytes is padded with [=]. *)
Definition Z_of_byte (b : byte) : Z := Z.of_N (Byte.to_N b).

Definition table_b2a_base64 (v : Z) : ascii :=
  ascii_of_nat
    (Z.to_nat (if v <? 26 then v + 65
               else if v <? 52 then v + 71
               else if v <? 62 then v - 4
               else if v =? 62 then 43
               else 47)).

Fixpoint b64encode (s : bytes) : string :=
  match s with
  | [] => EmptyString
  | [b1] =>
      let x1 := Z_of_byte b1 in
      String (table_b2a_base64 (Z.shiftr x1 2))
        (String (table_b2a_base64 (Z.shiftl (Z.land x1 3) 4))
           (String BASE64_PAD (String BASE64_PAD EmptyString)))
  | [b1; b2] =>
      let x1 := Z_of_byte b1 in
      let x2 := Z_of_byte b2 in
      String (table_b2a_base64 (Z.shiftr x1 2))
        (String (table_b2a_base64
                   (Z.lor (Z.shiftl (Z.land x1 3) 4) (Z.shiftr x2 4)))
           (String (table_b2a_base64 (Z.shiftl (Z.land x2 15) 2))
              (String BASE64_PAD EmptyString)))
  | b1 :: b2 :: b3 :: rest =>
      let x1 := Z_of_byte b1 in
      let x2 := Z_of_byte b2 in
      let x3 := Z_of_byte b3 in
      String (table_b2a_base64 (Z.shiftr x1 2))
        (String (table_b2a_base64
                   (Z.lor (Z.shiftl (Z.land x1 3) 4) (Z.shiftr x2 4)))
           (String (table_b2a_base64
                      (Z.lor (Z.shiftl (Z.land x2 15) 2) (Z.shiftr x3 6)))
              (String (table_b2a_base64 (Z.land x3 63)) (b64encode rest))))
  end.

End Base64.

(** ** The vendor's types ([google.genai.types]) *)

Record PrebuiltVoiceConfig := { voice_name : string }.
Record VoiceConfig := { prebuilt_voice_config : PrebuiltVoiceConfig }.
Record SpeechConfig := { voice_config : VoiceConfig }.
Record GenerateContentConfig := {
  response_modalities : list string;
  speech_config : SpeechConfig
}.

(** The response; an attribute that is absent or [None] is [None] here, as
    [getattr(_, name, None)] reads it. *)
Record Blob := { data : option string }.
Record Part := { inlineData : option Blob }.
Record Content := { parts : option (list Part) }.
Record Candidate := { content : option Content }.
Record GenerateContentResponse := { candidates : option (list Candidate) }.

(** The arguments of one [client.models.generate_content] call. *)
Record GenerateContentCall := {
  model : string;
  contents : string;
  config : GenerateContentConfig
}.

(** What one remote call does. *)
Inductive Outcome : Type :=
| Returns (response : GenerateContentResponse)
| Raises (exc : PyException).

(** The handle [genai.Client(api_key=...)] returns. *)
Record Client := { client_api_key : string }.

(** ** The engine and its world *)

(** [AudioResponse]; its attribute [content] is [audio_content] here, as
    a candidate of the response has a [content] too. *)
Record AudioResponse := { audio_content : bytes }.

Record OpenAITTSEngine := {
  _api_key : string;
  _voice : string;
  _model : string;
  _speed : float;
  _url : option string;
  _client : Client
}.

(** A log record: [_LOGGER.exception] is level [ERROR] with the exception
    being handled as [exc_info]. *)
Inductive LogLevel : Type := DEBUG | WARNING | ERROR.

Inductive LogArg : Type :=
| ArgInt (n : nat)
| ArgFloat (x : float)
| ArgExc (exc : PyException).

(** The observable effects, in the order they happen. *)
Inductive Event : Type :=
| GenerateContent (call : GenerateContentCall)
| Log (level : LogLevel) (fmt : string) (args : list LogArg)
      (exc_info : option PyException)
| Sleep (seconds : nat).

Definition log_warning (fmt : string) (args : list LogArg) : Event :=
  Log WARNING fmt args None.
Definition log_debug (fmt : string) (args : list LogArg) : Event :=
  Log DEBUG fmt args None.
Definition log_exception (fmt : string) (args : list LogArg)
           (exc : PyException) : Event :=
  Log ERROR fmt args (Some exc).

(** [remote n call] is what the remote service does at the call that
    follows [n] earlier ones. *)
Record State := {
  self : OpenAITTSEngine;
  remote : nat -> GenerateContentCall -> Outcome;
  trace : list Event
}.

Definition is_call (ev : Event) : bool :=
  match ev with GenerateContent _ => true | _ => false end.

Definition is_sleep (ev : Event) : bool :=
  match ev with Sleep _ => true | _ => false end.

Definition is_warning (ev : Event) : bool :=
  match ev with Log WARNING _ _ _ => true | _ => false end.

Definition calls_made (tr : list Event) : nat := length (filter is_call tr).

Definition calls_of (tr : list Event) : list GenerateContentCall :=
  flat_map (fun ev => match ev with GenerateContent c => [c] | _ => [] end) tr.

(** ** The monad *)

Definition M (A : Type) : Type := State -> (PyException + A) * State.

Definition ret {A} (a : A) : M A := fun st => (inr a, st).

Definition raise {A} (exc : PyException) : M A := fun st => (inl exc, st).

Definition bind {A B} (m : M A) (k : A -> M B) : M B :=
  fun st =>
    match m st with
    | (inr a, st') => k a st'
    | (inl exc, st') => (inl exc, st')
    end.

Notation "x <- m ;; k" := (bind m (fun x => k))
  (at level 61, m at next level, right associativity).
Notation "m ;;; k" := (bind m (fun _ => k))
  (at level 61, right associativity).

Definition lift {A} (r : PyException + A) : M A := fun st => (r, st).

Definition set_trace (st : State) (tr : list Event) : State :=
  {| self := self st; remote := remote st; trace := tr |}.

Definition emit (ev : Event) : M unit :=
  fun st => (inr tt, set_trace st (trace st ++ [ev])%list).

Definition get_self : M OpenAITTSEngine := fun st => (inr (self st), st).

(** [self._client.models.generate_content(model=, contents=, config=)];
    [remote] is the service as the client of the engine reaches it. *)
Definition generate_content (model contents : string)
           (config : GenerateContentConfig) : M GenerateContentResponse :=
  fun st =>
    let call := {| model := model; contents := contents; config := config |} in
    let st' := set_trace st (trace st ++ [GenerateContent call])%list in
    match remote st (calls_made (trace st)) call with
    | Returns response => (inr response, st')
    | Raises exc => (inl exc, st')
    end.

(** ** [OpenAITTSEngine.__init__] (lines 34-53)

    [genai_Client] is the vendor's constructor.  The result is the log
    records written and either the engine or the error raised. *)
Definition __init__ (genai_Client : string -> PyException + Client)
           (api_key voice model : string) (speed : float) (url : option string)
  : list Event * (PyException + OpenAITTSEngine) :=
  match genai_Client api_key with
  | inr client =>
      ([], inr {| _api_key := api_key; _voice := voice; _model := model;
                  _speed := speed; _url := url; _client := client |})
  | inl e =>
      ([log_exception "Failed to initialize Google Gemini client" [] e],
       inl (HomeAssistantError
              "Invalid Gemini API key or client initialization failed" (Some e)))
  end.

(** ** [OpenAITTSEngine.get_tts] (lines 55-144) *)

(** Lines 116-130: from the response to the audio. *)
Definition read_response (response : GenerateContentResponse)
  : PyException + AudioResponse :=
  let candidate :=
    match candidates response with
    | Some (c :: _) => Some c
    | _ => None
    end in
  match candidate with
  | None => inl (HomeAssistantError "No audio returned from Gemini TTS" None)
  | Some candidate =>
      match match content candidate with
            | Some c => parts c
            | None => None
            end with
      | None | Some [] =>
          inl (HomeAssistantError "No audio returned from Gemini TTS" None)
      | Some (part0 :: _) =>
          match inlineData part0 with
          | None =>
              inl (HomeAssistantError "Malformed response from Gemini TTS" None)
          | Some blob =>
              match Base64.b64decode (data blob) with
              | inl exc => inl exc
              | inr audio_bytes => inr {| audio_content := audio_bytes |}
              end
          end
      end
  end.

(** The body of the [try] (lines 107-130). *)
Definition try_body (prompt : string) (generate_config : GenerateContentConfig)
  : M AudioResponse :=
  self <- get_self ;;
  response <- generate_content (_model self) prompt generate_config ;;
  lift (read_response response).

Definition exception_fmt : string :=
  "Error in Gemini TTS get_tts on attempt %d: %s".
Definition retry_fmt : string := "Retrying Gemini TTS call (attempt %d)".
Definition warning_fmt : string :=
  "Gemini TTS does not support a numeric 'speed' parameter; ignoring speed=%s".
Definition final_msg : string :=
  "Failed to fetch TTS audio from Gemini after retries".

(** The [while True] loop (lines 105-144): it goes round again only while
    [attempt < max_retries], with [attempt] one larger. *)
Equations? retry_loop (prompt : string) (generate_config : GenerateContentConfig)
           (max_retries attempt : nat) (st : State)
  : (PyException + AudioResponse) * State
  by wf (max_retries - attempt) lt :=
  retry_loop prompt generate_config max_retries attempt st
    with try_body prompt generate_config st => {
    | (inr audio, st1) := (inr audio, st1);
    | (inl exc, st1)
        with emit (log_exception exception_fmt
                                 [ArgInt (attempt + 1); ArgExc exc] exc) st1 => {
        | (_, st2) with lt_dec attempt max_retries => {
          | left _ :=
              (emit (Sleep 1) ;;;
               emit (log_debug retry_fmt [ArgInt (attempt + 1 + 1)]) ;;;
               (fun st3 =>
                  retry_loop prompt generate_config max_retries (attempt + 1)
                             st3)) st2;
          | right _ :=
              (inl (HomeAssistantError final_msg (Some exc)), st2) } } }.
Proof. lia. Qed.

(** Lines 75-76: the voice of the call. *)
Definition voice_for (self : OpenAITTSEngine) (voice : option string) : string :=
  match voice with
  | None => _voice self
  | Some voice => voice
  end.

(** Lines 80-83: the prompt of the call. *)
Definition prompt_for (text : string) (instructions : option string) : string :=
  match instructions with
  | Some i => if truthy instructions then i ++ newline ++ text else text
  | None => text
  end.

(** Lines 92-100: the configuration of a single-speaker request. *)
Definition generate_config_for (voice : string) : GenerateContentConfig :=
  let speech_config :=
    {| voice_config :=
         {| prebuilt_voice_config := {| voice_name := voice |} |} |} in
  {| response_modalities := ["AUDIO"]; speech_config := speech_config |}.

Definition max_retries : nat := 1.

Definition get_tts (text : string) (speed : option float)
           (instructions : option string) (voice : option string)
  : M AudioResponse :=
  self <- get_self ;;
  let voice := voice_for self voice in
  let prompt := prompt_for text instructions in
  match speed with
  | Some speed => emit (log_warning warning_fmt [ArgFloat speed])
  | None => ret tt
  end ;;;
  let generate_config := generate_config_for voice in
  let attempt := 0 in
  retry_loop prompt generate_config max_retries attempt.

(** [close] (lines 146-148). *)
Definition close : M unit := ret tt.

(** [get_supported_langs] (lines 150-161), a static method. *)
Definition get_supported_langs : M (list string) :=
  ret [ "ar-EG"; "de-DE"; "en-US"; "es-US"; "fr-FR"; "hi-IN";
        "id-ID"; "it-IT"; "ja-JP"; "ko-KR"; "nl-NL"; "pl-PL";
        "pt-BR"; "ru-RU"; "th-TH"; "tr-TR"; "vi-VN"; "ro-RO";
        "uk-UA"; "bn-BD"; "en-IN"; "mr-IN"; "ta-IN"; "te-IN" ].

(** ** Vocabulary of the properties *)

(** The remote call [get_tts] issues from engine [self]. *)
Definition call_for (self : OpenAITTSEngine) (text : string)
           (instructions voice : option string) : GenerateContentCall :=
  {| model := _model self;
     contents := prompt_for text instructions;
     config := generate_config_for (voice_for self voice) |}.

(** How one attempt ends, given what the remote call did: the result of the
    [try] body. *)
Definition try_result (o : Outcome) : PyException + AudioResponse :=
  match o with
  | Returns response => read_response response
  | Raises exc => inl exc
  end.

(** The events a run added to the trace. *)
Definition new_events (st st' : State) : list Event :=
  skipn (length (trace st)) (trace st').

(** The log records of a failed attempt and of the retry that follows. *)
Definition failure_record (attempt : nat) (exc : PyException) : Event :=
  log_exception exception_fmt [ArgInt attempt; ArgExc exc] exc.

Definition retry_record (attempt : nat) : Event :=
  log_debug retry_fmt [ArgInt attempt].

Definition speed_warning (speed : option float) : list Event :=
  match speed with
  | Some speed => [log_warning warning_fmt [ArgFloat speed]]
  | None => []
  end.

(** The path of the comment of lines 114-115,
    [response.candidates[0].content.parts[0].inlineData.data]. *)
Definition inline_audio_data (response : GenerateContentResponse)
  : option string :=
  match candidates response with
  | Some (candidate :: _) =>
      match content candidate with
      | Some c =>
          match parts c with
          | Some (part0 :: _) =>
              match inlineData part0 with
              | Some blob => data blob
              | None => None
              end
          | _ => None
          end
      | None => None
      end
  | _ => None
  end.

(** The invalid shapes of a response: no candidate, a first candidate
    without a part, a first part without inline data.  A list that is absent
    counts as empty. *)
Inductive invalid_shape (response : GenerateContentResponse) : Prop :=
| zero_candidates :
    candidates response = None \/ candidates response = Some [] ->
    invalid_shape response
| zero_parts candidate rest :
    candidates response = Some (candidate :: rest) ->
    content candidate = None \/
    content candidate = Some {| parts := None |} \/
    content candidate = Some {| parts := Some [] |} ->
    invalid_shape response
| no_inline_data candidate rest c part0 ps :
    candidates response = Some (candidate :: rest) ->
    content candidate = Some c ->
    parts c = Some (part0 :: ps) ->
    inlineData part0 = None ->
    invalid_shape response.

Definition is_response_error (exc : PyException) : Prop :=
  exc = HomeAssistantError "No audio returned from Gemini TTS" None \/
  exc = HomeAssistantError "Malformed response from Gemini TTS" None.

(** A remote service that does [o] at call [k] and is [f] elsewhere. *)
Definition override (f : nat -> GenerateContentCall -> Outcome) (k : nat)
           (o : Outcome) : nat -> GenerateContentCall -> Outcome :=
  fun n call => if Nat.eqb n k then o else f n call.



(** The retry policy after a first attempt that failed with [e1]: the
    failure is logged, the run sleeps one second, logs the retry and calls
    again; [second] is how the second attempt ends. The result and the
    events of such a run. *)
Definition after_failed_first (speed : option float) (call : GenerateContentCall)
           (e1 : PyException) (second : PyException + AudioResponse)
  : (PyException + AudioResponse) * list Event :=
  let retried :=
    (speed_warning speed ++
     [GenerateContent call; failure_record 1 e1; Sleep 1; retry_record 2;
      GenerateContent call])%list in
  match second with
  | inr audio => (inr audio, retried)
  | inl e2 =>
      (inl (HomeAssistantError final_msg (Some e2)),
       (retried ++ [failure_record 2 e2])%list)
  end.

(** The arguments of one [get_tts] call, and a sequence of calls on one
    engine. *)
Record GetTtsArgs := {
  arg_text : string;
  arg_speed : option float;
  arg_instructions : option string;
  arg_voice : option string
}.

Fixpoint run_calls (calls : list GetTtsArgs) (st : State) : State :=
  match calls with
  | [] => st
  | a :: rest =>
      run_calls rest
        (snd (get_tts (arg_text a) (arg_speed a) (arg_instructions a)
                      (arg_voice a) st))
  end.

(** The shape of the tags of the list: two lower-case letters, a hyphen,
    two upper-case letters (language and region subtags of BCP 47). *)
Definition is_lower (c : ascii) : bool :=
  ((97 <=? nat_of_ascii c) && (nat_of_ascii c <=? 122))%nat.
Definition is_upper (c : ascii) : bool :=
  ((65 <=? nat_of_ascii c) && (nat_of_ascii c <=? 90))%nat.

Definition is_locale_tag (s : string) : bool :=
  match list_ascii_of_string s with
  | [l1; l2; h; r1; r2] =>
      is_lower l1 && is_lower l2 && Ascii.eqb h "-"%char
      && is_upper r1 && is_upper r2
  | _ => false
  end.

(** The voice of a remote call. *)
Definition call_voice (call : GenerateContentCall) : string :=
  voice_name (prebuilt_voice_config (voice_config (speech_config (config call)))).

(** Events other than the speed warning. *)
Definition not_warning (ev : Event) : bool := negb (is_warning ev).

(** ** Concrete engines, responses and services *)

(** The default speed of the constructor, [1.0]. *)
Definition default_speed : float := S754_finite false 4503599627370496 (-52).

Definition slow_speed : float := S754_finite false 4503599627370496 (-53).

Definition kore_engine : OpenAITTSEngine :=
  {| _api_key := "secret"; _voice := "Kore";
     _model := "gemini-2.5-flash-preview-tts";
     _speed := default_speed; _url := None;
     _client := {| client_api_key := "secret" |} |}.

(** A response whose first part carries [s]. *)
Definition audio_response (s : string) : GenerateContentResponse :=
  {| candidates :=
       Some [ {| content :=
                   Some {| parts :=
                             Some [ {| inlineData := Some {| data := Some s |} |} ]
                        |} |} ] |}.

Definition no_candidates : GenerateContentResponse := {| candidates := Some [] |}.

Definition unavailable : PyException := VendorError "ServerError" "503 UNAVAILABLE".

(** A vendor constructor that accepts every key. *)
Definition accepting_Client (api_key : string) : PyException + Client :=
  inr {| client_api_key := api_key |}.

(** A service that always does [o]; one that raises [exc] at its first
    call and does [o] afterwards. *)
Definition always (o : Outcome) : nat -> GenerateContentCall -> Outcome :=
  fun _ _ => o.

Definition fails_once (exc : PyException) (o : Outcome)
  : nat -> GenerateContentCall -> Outcome :=
  fun n _ => if Nat.eqb n 0 then Raises exc else o.

Definition fresh (engine : OpenAITTSEngine)
           (f : nat -> GenerateContentCall -> Outcome) : State :=
  {| self := engine; remote := f; trace := [] |}.

(** ** Vocabulary of the further properties *)

(** The records [_LOGGER.exception] writes. *)
Definition is_error_log (ev : Event) : bool :=
  match ev with Log ERROR _ _ _ => true | _ => false end.

(** The same world around another engine object. *)
Definition set_self (st : State) (engine : OpenAITTSEngine) : State :=
  {| self := engine; remote := remote st; trace := trace st |}.

(** The exceptions [base64.b64decode] raises. *)
Definition is_decode_error (exc : PyException) : Prop :=
  match exc with
  | TypeError _ | ValueError _ | BinasciiError _ => True
  | _ => False
  end.

(** The seconds a list of events sleeps in all. *)
Definition seconds_slept (evs : list Event) : nat :=
  list_sum (map (fun ev => match ev with Sleep seconds => seconds | _ => 0 end)
                evs).

(** The events of the attempts that failed with [excs] and were retried,
    the first of them being attempt [attempt + 1]: for each one the call,
    the error record, the sleep of one second and the retry record. *)
Fixpoint retried_events (call : GenerateContentCall) (attempt : nat)
         (excs : list PyException) : list Event :=
  match excs with
  | [] => []
  | exc :: rest =>
      [GenerateContent call; failure_record (attempt + 1) exc; Sleep 1;
       retry_record (attempt + 1 + 1)]
        ++ retried_events call (attempt + 1) rest
  end%list.

(** The first part's inline data object, on the path of lines 116-128. *)
Definition inline_blob (response : GenerateContentResponse) : option Blob :=
  match candidates response with
  | Some (candidate :: _) =>
      match content candidate with
      | Some c =>
          match parts c with
          | Some (part0 :: _) => inlineData part0
          | _ => None
          end
      | None => None
      end
  | _ => None
  end.

(** A response whose first part has an inline data object without data. *)
Definition dataless_response : GenerateContentResponse :=
  {| candidates :=
       Some [ {| content :=
                   Some {| parts :=
                             Some [ {| inlineData := Some {| data := None |} |} ]
                        |} |} ] |}.

(** A character the decoder skips: ASCII, not the pad and outside the
    alphabet. *)
Definition is_skipped (c : ascii) : bool :=
  (nat_of_ascii c <? 128)%nat && negb (Ascii.eqb c Base64.BASE64_PAD)
  && (64 <=? Base64.table_a2b_base64 c)%Z.

(** A vendor constructor that refuses every key. *)
Definition invalid_key : PyException :=
  VendorError "ClientError" "400 API key not valid".

Definition rejecting_Client (api_key : string) : PyException + Client :=
  inl invalid_key.

(** An engine that differs from [kore_engine] in the fields [_speed] and
    [_url] only. *)
Definition other_kore_engine : OpenAITTSEngine :=
  {| _api_key := "secret"; _voice := "Kore";
     _model := "gemini-2.5-flash-preview-tts";
     _speed := slow_speed; _url := Some "https://api.openai.com/v1/audio/speech";
     _client := {| client_api_key := "secret" |} |}.

(** ** Base64: the decoder inverts the standard encoder *)

Module Base64Facts.
Import Base64.
Local Open Scope Z_scope.

(** A low part below [2^k] does not meet a part shifted by [k]. *)
Lemma lor_shiftl_low hi lo k :
  0 <= k -> 0 <= lo < 2 ^ k -> Z.lor (Z.shiftl hi k) lo = hi * 2 ^ k + lo.
Proof.
  intros Hk Hlo.
  assert (Hdisjoint : Z.land (Z.shiftl hi k) lo = 0).
  { apply Z.bits_inj'. intros n Hn.
    rewrite Z.land_spec, Z.bits_0.
    destruct (Z.lt_ge_cases n k) as [Hlt|Hge].
    - rewrite Z.shiftl_spec_low by assumption. reflexivity.
    - destruct (Z.eq_dec lo 0) as [->|Hnz].
      + rewrite Z.bits_0. apply andb_false_r.
      + rewrite (Z.bits_above_log2 lo n); [apply andb_false_r | lia |].
        apply Z.lt_le_trans with k; [|assumption].
        apply Z.log2_lt_pow2; lia. }
  rewrite <- Z.lxor_lor, <- Z.add_nocarry_lxor by assumption.
  rewrite Z.shiftl_mul_pow2 by assumption. reflexivity.
Qed.

Lemma Z_of_byte_range b : 0 <= Z_of_byte b < 256.
Proof.
  unfold Z_of_byte. pose proof (Byte.to_N_bounded b). lia.
Qed.

Lemma u8_Z_of_byte b : u8 (Z_of_byte b) = b.
Proof.
  unfold u8, Z_of_byte.
  rewrite Z.mod_small by (pose proof (Byte.to_N_bounded b); lia).
  rewrite N2Z.id, Byte.of_to_N. reflexivity.
Qed.


(** The characters of the alphabet: none is the pad, each is ASCII, and the
    decoding table gives back its value. *)
Lemma sextet_char v :
  0 <= v < 64 ->
  Ascii.eqb (table_b2a_base64 v) BASE64_PAD = false /\
  table_a2b_base64 (table_b2a_base64 v) = v /\
  (nat_of_ascii (table_b2a_base64 v) <? 128)%nat = true.
Proof.
  intros Hv. rewrite <- (Z2Nat.id v) by lia.
  assert (Hn : (Z.to_nat v < 64)%nat) by lia.
  revert Hn. generalize (Z.to_nat v) as n. clear v Hv. intros n Hn.
  do 64 (destruct n as [|n]; [repeat split|]).
  lia.
Qed.

(** One step of the decoder on a character of the alphabet. *)
Lemma a2b_loop_sextet v rest quad_pos leftchar pads bin_data :
  0 <= v < 64 ->
  a2b_loop (String (table_b2a_base64 v) rest) quad_pos leftchar pads bin_data =
  match quad_pos with
  | 0 => a2b_loop rest 1 v 0 bin_data
  | 1 => a2b_loop rest 2 (Z.land v 15) 0
           (bin_data ++ [u8 (Z.lor (Z.shiftl leftchar 2) (Z.shiftr v 4))])%list
  | 2 => a2b_loop rest 3 (Z.land v 3) 0
           (bin_data ++ [u8 (Z.lor (Z.shiftl leftchar 4) (Z.shiftr v 2))])%list
  | _ => a2b_loop rest 0 0 0
           (bin_data ++ [u8 (Z.lor (Z.shiftl leftchar 6) v)])%list
  end.
Proof.
  intros Hv. destruct (sextet_char v Hv) as (Hpad & Htable & _).
  cbn [a2b_loop]. rewrite Hpad, Htable.
  replace (64 <=? v) with false by (symmetry; apply Z.leb_gt; lia).
  reflexivity.
Qed.

(** The bit operations of the encoder and of the decoder, as arithmetic. *)
Lemma land_3 x : Z.land x 3 = x mod 4.
Proof. change 3 with (Z.ones 2). rewrite Z.land_ones by lia. reflexivity. Qed.

Lemma land_15 x : Z.land x 15 = x mod 16.
Proof. change 15 with (Z.ones 4). rewrite Z.land_ones by lia. reflexivity. Qed.

Lemma land_63 x : Z.land x 63 = x mod 64.
Proof. change 63 with (Z.ones 6). rewrite Z.land_ones by lia. reflexivity. Qed.

Lemma shiftr_2 x : Z.shiftr x 2 = x / 4.
Proof. rewrite Z.shiftr_div_pow2 by lia. reflexivity. Qed.

Lemma shiftr_4 x : Z.shiftr x 4 = x / 16.
Proof. rewrite Z.shiftr_div_pow2 by lia. reflexivity. Qed.

Lemma shiftr_6 x : Z.shiftr x 6 = x / 64.
Proof. rewrite Z.shiftr_div_pow2 by lia. reflexivity. Qed.

Lemma lor_shiftl_2 hi lo : 0 <= lo < 4 -> Z.lor (Z.shiftl hi 2) lo = hi * 4 + lo.
Proof. intros H. rewrite lor_shiftl_low by (cbn; lia). reflexivity. Qed.

Lemma lor_shiftl_4 hi lo : 0 <= lo < 16 -> Z.lor (Z.shiftl hi 4) lo = hi * 16 + lo.
Proof. intros H. rewrite lor_shiftl_low by (cbn; lia). reflexivity. Qed.

Lemma lor_shiftl_6 hi lo : 0 <= lo < 64 -> Z.lor (Z.shiftl hi 6) lo = hi * 64 + lo.
Proof. intros H. rewrite lor_shiftl_low by (cbn; lia). reflexivity. Qed.

Lemma shiftl_2 x : Z.shiftl x 2 = x * 4.
Proof. rewrite Z.shiftl_mul_pow2 by lia. reflexivity. Qed.

Lemma shiftl_4 x : Z.shiftl x 4 = x * 16.
Proof. rewrite Z.shiftl_mul_pow2 by lia. reflexivity. Qed.

Ltac into_arith :=
  rewrite ?land_3, ?land_15, ?land_63, ?shiftr_2, ?shiftr_4, ?shiftr_6;
  rewrite ?lor_shiftl_2, ?lor_shiftl_4, ?lor_shiftl_6
    by (Z.div_mod_to_equations; lia);
  rewrite ?shiftl_2, ?shiftl_4.

Ltac arith := Z.div_mod_to_equations; lia.

(** A full group: three bytes, four characters. *)
Lemma a2b_loop_group b1 b2 b3 rest bin_data :
  a2b_loop (b64encode (b1 :: b2 :: b3 :: rest)) 0 0 0 bin_data =
  a2b_loop (b64encode rest) 0 0 0 (bin_data ++ [b1; b2; b3])%list.
Proof.
  cbn [b64encode].
  pose proof (Z_of_byte_range b1) as H1.
  pose proof (Z_of_byte_range b2) as H2.
  pose proof (Z_of_byte_range b3) as H3.
  set (x1 := Z_of_byte b1) in *. set (x2 := Z_of_byte b2) in *.
  set (x3 := Z_of_byte b3) in *.
  into_arith.
  rewrite !a2b_loop_sextet by arith.
  into_arith.
  rewrite <- !app_assoc. cbn [app].
  replace (x1 / 4 * 4 + ((x1 mod 4) * 16 + x2 / 16) / 16) with x1 by arith.
  replace (((x1 mod 4) * 16 + x2 / 16) mod 16 * 16
           + ((x2 mod 16) * 4 + x3 / 64) / 4) with x2 by arith.
  replace (((x2 mod 16) * 4 + x3 / 64) mod 4 * 64 + x3 mod 64) with x3 by arith.
  subst x1 x2 x3. rewrite !u8_Z_of_byte. reflexivity.
Qed.


(** A last group of one byte, padded with two [=]. *)
Lemma a2b_loop_last1 b1 bin_data :
  a2b_loop (b64encode [b1]) 0 0 0 bin_data = Done (bin_data ++ [b1])%list.
Proof.
  cbn [b64encode].
  pose proof (Z_of_byte_range b1) as H1.
  set (x1 := Z_of_byte b1) in *.
  into_arith.
  rewrite !a2b_loop_sextet by arith.
  into_arith.
  replace (x1 / 4 * 4 + x1 mod 4 * 16 / 16) with x1 by arith.
  subst x1. rewrite u8_Z_of_byte. reflexivity.
Qed.

(** A last group of two bytes, padded with one [=]. *)
Lemma a2b_loop_last2 b1 b2 bin_data :
  a2b_loop (b64encode [b1; b2]) 0 0 0 bin_data = Done (bin_data ++ [b1; b2])%list.
Proof.
  cbn [b64encode].
  pose proof (Z_of_byte_range b1) as H1.
  pose proof (Z_of_byte_range b2) as H2.
  set (x1 := Z_of_byte b1) in *. set (x2 := Z_of_byte b2) in *.
  into_arith.
  rewrite !a2b_loop_sextet by arith.
  into_arith.
  rewrite <- !app_assoc. cbn [app].
  replace (x1 / 4 * 4 + ((x1 mod 4) * 16 + x2 / 16) / 16) with x1 by arith.
  replace (((x1 mod 4) * 16 + x2 / 16) mod 16 * 16 + x2 mod 16 * 4 / 4)
    with x2 by arith.
  subst x1 x2. rewrite !u8_Z_of_byte. reflexivity.
Qed.

(** Induction on byte strings, a group at a time. *)
Lemma bytes_ind3 (P : bytes -> Prop) :
  P [] -> (forall b1, P [b1]) -> (forall b1 b2, P [b1; b2]) ->
  (forall b1 b2 b3 rest, P rest -> P (b1 :: b2 :: b3 :: rest)) ->
  forall s, P s.
Proof.
  intros H0 H1 H2 H3. fix IH 1.
  intros [|b1 [|b2 [|b3 rest]]];
    [exact H0 | apply H1 | apply H2 | apply H3, IH].
Qed.

Lemma a2b_loop_b64encode s : forall bin_data,
  a2b_loop (b64encode s) 0 0 0 bin_data = Done (bin_data ++ s)%list \/
  a2b_loop (b64encode s) 0 0 0 bin_data = EndOfInput 0 (bin_data ++ s)%list.
Proof.
  induction s as [|b1|b1 b2|b1 b2 b3 rest IH] using bytes_ind3; intros bin_data.
  - right. rewrite app_nil_r. reflexivity.
  - left. apply a2b_loop_last1.
  - left. apply a2b_loop_last2.
  - rewrite a2b_loop_group.
    replace (bin_data ++ b1 :: b2 :: b3 :: rest)%list
      with ((bin_data ++ [b1; b2; b3]) ++ rest)%list
      by (rewrite <- app_assoc; reflexivity).
    apply IH.
Qed.

Lemma is_ascii_b64encode s : is_ascii (b64encode s) = true.
Proof.
  unfold is_ascii.
  induction s as [|b1|b1 b2|b1 b2 b3 rest IH] using bytes_ind3.
  - reflexivity.
  - pose proof (Z_of_byte_range b1) as H1.
    cbn [b64encode list_ascii_of_string forallb]. into_arith.
    rewrite !(fun v H => proj2 (proj2 (sextet_char v H))) by arith.
    reflexivity.
  - pose proof (Z_of_byte_range b1) as H1.
    pose proof (Z_of_byte_range b2) as H2.
    cbn [b64encode list_ascii_of_string forallb]. into_arith.
    rewrite !(fun v H => proj2 (proj2 (sextet_char v H))) by arith.
    reflexivity.
  - pose proof (Z_of_byte_range b1) as H1.
    pose proof (Z_of_byte_range b2) as H2.
    pose proof (Z_of_byte_range b3) as H3.
    cbn [b64encode list_ascii_of_string forallb]. into_arith.
    rewrite !(fun v H => proj2 (proj2 (sextet_char v H))) by arith.
    exact IH.
Qed.

(** [b64decode] inverts the standard encoding: it is the standard
    decoding on every encoded byte string. *)
Theorem b64decode_b64encode s : b64decode (Some (b64encode s)) = inr s.
Proof.
  unfold b64decode, a2b_base64. rewrite is_ascii_b64encode.
  destruct (a2b_loop_b64encode s []) as [-> | ->]; reflexivity.
Qed.

End Base64Facts.

(** ** Basic facts about the monad, the trace and the loop *)

Lemma calls_made_app (tr1 tr2 : list Event) :
  calls_made (tr1 ++ tr2) = calls_made tr1 + calls_made tr2.
Proof.
  unfold calls_made. rewrite filter_app, length_app. reflexivity.
Qed.

Lemma calls_of_app (tr1 tr2 : list Event) :
  calls_of (tr1 ++ tr2) = (calls_of tr1 ++ calls_of tr2)%list.
Proof. unfold calls_of. apply flat_map_app. Qed.

Lemma calls_made_speed_warning speed : calls_made (speed_warning speed) = 0.
Proof. destruct speed; reflexivity. Qed.

Lemma new_events_app st st' evs :
  trace st' = (trace st ++ evs)%list -> new_events st st' = evs.
Proof.
  intros H. unfold new_events. rewrite H.
  rewrite skipn_app, skipn_all, Nat.sub_diag. reflexivity.
Qed.

(** One turn of the loop. *)
Lemma retry_loop_turn prompt generate_config max_retries attempt st :
  retry_loop prompt generate_config max_retries attempt st =
  match try_body prompt generate_config st with
  | (inr audio, st1) => (inr audio, st1)
  | (inl exc, st1) =>
      let st2 :=
        set_trace st1 (trace st1 ++ [failure_record (attempt + 1) exc])%list in
      if (attempt <? max_retries)%nat
      then retry_loop prompt generate_config max_retries (attempt + 1)
             (set_trace st2
                (trace st2 ++ [Sleep 1; retry_record (attempt + 1 + 1)])%list)
      else (inl (HomeAssistantError final_msg (Some exc)), st2)
  end.
Proof.
  simp retry_loop.
  destruct (try_body prompt generate_config st) as [[exc|audio] st1]; simpl.
  2: reflexivity.
  destruct (lt_dec attempt max_retries) as [Hlt|Hge]; simpl.
  - apply Nat.ltb_lt in Hlt. rewrite Hlt.
    unfold bind, emit, set_trace; simpl.
    rewrite <- !app_assoc. reflexivity.
  - apply Nat.ltb_nlt in Hge. rewrite Hge. reflexivity.
Qed.

(** The [try] body: the call is recorded and its outcome read. *)
Lemma try_body_run prompt generate_config st :
  try_body prompt generate_config st =
  let call := {| model := _model (self st); contents := prompt;
                 config := generate_config |} in
  (try_result (remote st (calls_made (trace st)) call),
   set_trace st (trace st ++ [GenerateContent call])%list).
Proof.
  unfold try_body, bind, get_self, generate_content, lift; simpl.
  destruct (remote st (calls_made (trace st)) _); reflexivity.
Qed.

Lemma set_trace_set_trace st tr tr' :
  set_trace (set_trace st tr) tr' = set_trace st tr'.
Proof. reflexivity. Qed.

(** The whole of [get_tts]: what it returns and what it adds to the trace,
    by the outcome of the first attempt and, when that one fails, of the
    second. *)
Lemma get_tts_run text speed instructions voice st :
  let call := call_for (self st) text instructions voice in
  let n := calls_made (trace st) in
  let tr0 := (trace st ++ speed_warning speed)%list in
  get_tts text speed instructions voice st =
  match try_result (remote st n call) with
  | inr audio => (inr audio, set_trace st (tr0 ++ [GenerateContent call])%list)
  | inl e1 =>
      match try_result (remote st (S n) call) with
      | inr audio =>
          (inr audio,
           set_trace st
             (tr0 ++ [GenerateContent call; failure_record 1 e1; Sleep 1;
                      retry_record 2; GenerateContent call])%list)
      | inl e2 =>
          (inl (HomeAssistantError final_msg (Some e2)),
           set_trace st
             (tr0 ++ [GenerateContent call; failure_record 1 e1; Sleep 1;
                      retry_record 2; GenerateContent call;
                      failure_record 2 e2])%list)
      end
  end.
Proof.
  intros call n tr0.
  unfold get_tts, bind, get_self.
  assert (Hw : (match speed with
                | Some speed0 => emit (log_warning warning_fmt [ArgFloat speed0])
                | None => ret tt
                end) st = (inr tt, set_trace st tr0)).
  { subst tr0. destruct speed; unfold emit, ret, set_trace; simpl.
    - reflexivity.
    - rewrite app_nil_r. destruct st; reflexivity. }
  rewrite Hw. clear Hw.
  assert (Hn : calls_made tr0 = n).
  { subst tr0 n. rewrite calls_made_app, calls_made_speed_warning. lia. }
  rewrite retry_loop_turn, try_body_run. cbn zeta.
  change (self (set_trace st tr0)) with (self st).
  change (remote (set_trace st tr0)) with (remote st).
  change (trace (set_trace st tr0)) with tr0.
  fold (call_for (self st) text instructions voice). fold call.
  rewrite Hn, set_trace_set_trace.
  destruct (try_result (remote st n call)) as [e1|audio]; [|reflexivity].
  change (0 <? max_retries)%nat with true. cbn iota.
  rewrite retry_loop_turn, try_body_run. cbn zeta.
  rewrite !set_trace_set_trace.
  change (self (set_trace st ?t)) with (self st).
  change (remote (set_trace st ?t)) with (remote st).
  unfold set_trace at 1 2 3. cbn [trace self remote].
  fold (call_for (self st) text instructions voice). fold call.
  rewrite <- !app_assoc. cbn [app].
  replace (calls_made (tr0 ++ [GenerateContent call; failure_record (0 + 1) e1;
                                Sleep 1; retry_record (0 + 1 + 1)])) with (S n).
  2:{ rewrite calls_made_app, Hn. cbn. lia. }
  destruct (try_result (remote st (S n) call)) as [e2|audio].
  - change (0 + 1 <? max_retries)%nat with false. cbn iota.
    unfold set_trace; cbn [trace self remote].
    rewrite <- !app_assoc. reflexivity.
  - unfold set_trace; cbn [trace self remote].
    rewrite <- !app_assoc. reflexivity.
Qed.

Lemma trace_set_trace st tr : trace (set_trace st tr) = tr.
Proof. reflexivity. Qed.

Lemma self_set_trace st tr : self (set_trace st tr) = self st.
Proof. reflexivity. Qed.

(** [get_tts] only appends to the trace, and leaves the engine and the
    remote service as they are. *)
Lemma get_tts_frame text speed instructions voice st :
  let run := get_tts text speed instructions voice st in
  exists evs, snd run = set_trace st (trace st ++ evs)%list.
Proof.
  cbn zeta. rewrite get_tts_run.
  destruct (try_result _) as [e1|a1];
    [destruct (try_result _) as [e2|a2]|];
    cbn [snd]; rewrite <- app_assoc; eexists; reflexivity.
Qed.

(** The remote calls of one [get_tts]: one or two, all with the same
    arguments. *)
Lemma get_tts_calls text speed instructions voice st :
  let call := call_for (self st) text instructions voice in
  let calls :=
    calls_of (new_events st (snd (get_tts text speed instructions voice st))) in
  calls = [call] \/ calls = [call; call].
Proof.
  cbn zeta. rewrite get_tts_run.
  destruct (try_result _) as [e1|a1];
    [destruct (try_result _) as [e2|a2]|];
    cbn [snd]; rewrite <- app_assoc;
    erewrite new_events_app by reflexivity;
    rewrite calls_of_app; destruct speed; cbn; auto.
Qed.

(** When the first part carries inline data, reading the response is
    decoding that data; otherwise it fails. *)
Lemma read_response_ok response audio :
  read_response response = inr audio <->
  exists s, inline_audio_data response = Some s /\
            Base64.b64decode (Some s) = inr (audio_content audio).
Proof.
  unfold read_response, inline_audio_data.
  destruct (candidates response) as [[|candidate rest]|].
  2: destruct (content candidate) as [c|].
  2: destruct (parts c) as [[|part0 ps]|].
  3: destruct (inlineData part0) as [blob|].
  3: destruct (data blob) as [s|] eqn:Hdata.
  all: try (split; [discriminate | intros (s & Hs & _); discriminate]).
  - split.
    + destruct (Base64.b64decode (Some s)) as [exc|bs] eqn:Hdec; [discriminate|].
      intros H. injection H as <-. exists s. split; [reflexivity|].
      rewrite Hdec. reflexivity.
    + intros (s' & Hs & Hdec). injection Hs as <-. rewrite Hdec.
      destruct audio; reflexivity.
Qed.


(** Every remote call of a run satisfies what the call of [call_for]
    satisfies, and there is at least one. *)
Lemma get_tts_calls_all text speed instructions voice st
      (P : GenerateContentCall -> Prop) :
  P (call_for (self st) text instructions voice) ->
  let calls :=
    calls_of (new_events st (snd (get_tts text speed instructions voice st))) in
  calls <> [] /\ Forall P calls.
Proof.
  intros HP calls. subst calls.
  destruct (get_tts_calls text speed instructions voice st) as [-> | ->];
    split; try discriminate; repeat constructor; exact HP.
Qed.

Lemma get_tts_self text speed instructions voice st :
  self (snd (get_tts text speed instructions voice st)) = self st.
Proof.
  destruct (get_tts_frame text speed instructions voice st) as (evs & ->).
  reflexivity.
Qed.

Lemma run_calls_self calls : forall st, self (run_calls calls st) = self st.
Proof.
  induction calls as [|a rest IH]; intros st; cbn [run_calls].
  - reflexivity.
  - rewrite IH. apply get_tts_self.
Qed.

(** The constructor stores its arguments. *)
Lemma init_fields genai_Client api_key voice model speed url evs engine :
  __init__ genai_Client api_key voice model speed url = (evs, inr engine) ->
  _api_key engine = api_key /\ _voice engine = voice /\ _model engine = model /\
  _speed engine = speed /\ _url engine = url.
Proof.
  unfold __init__. destruct (genai_Client api_key); [discriminate|].
  intros H. injection H as _ <-. repeat split.
Qed.

Lemma truthy_nonempty X : X <> "" -> truthy (Some X) = true.
Proof.
  intros HX. unfold truthy.
  destruct (String.eqb_spec X ""); [contradiction | reflexivity].
Qed.

(** An invalid shape is refused by one of the two checks of lines 121-126. *)
Lemma invalid_shape_refused response :
  invalid_shape response ->
  exists exc, is_response_error exc /\ read_response response = inl exc.
Proof.
  unfold is_response_error, read_response.
  intros [[H|H] | candidate rest Hc [H | [H|H]]
         | candidate rest c part0 ps Hc Hct Hp Hi].
  - rewrite H. eauto.
  - rewrite H. eauto.
  - rewrite Hc, H. eauto.
  - rewrite Hc, H. eauto.
  - rewrite Hc, H. eauto.
  - rewrite Hc, Hct, Hp, Hi. eauto.
Qed.

(** ** The retry policy *)

(** C1. When the remote call, or the validation of its response, raises on
    both attempts, [get_tts] makes exactly two remote calls and then raises
    the final error, whose cause is the exception of the second attempt. *)
Theorem get_tts_two_failures text speed instructions voice st e1 e2 :
  let call := call_for (self st) text instructions voice in
  let n := calls_made (trace st) in
  try_result (remote st n call) = inl e1 ->
  try_result (remote st (S n) call) = inl e2 ->
  let run := get_tts text speed instructions voice st in
  fst run = inl (HomeAssistantError final_msg (Some e2)) /\
  calls_of (new_events st (snd run)) = [call; call] /\
  calls_made (trace (snd run)) = n + 2 /\
  new_events st (snd run) =
    (speed_warning speed ++
     [GenerateContent call; failure_record 1 e1; Sleep 1; retry_record 2;
      GenerateContent call; failure_record 2 e2])%list.
Proof.
  intros call n H1 H2 run. subst run. rewrite get_tts_run.
  fold call n. rewrite H1, H2. cbn [fst snd].
  rewrite <- app_assoc.
  erewrite new_events_app by reflexivity.
  rewrite trace_set_trace, !calls_made_app, calls_of_app, calls_made_speed_warning.
  fold n. split; [reflexivity|]. split; [|split].
  - destruct speed; reflexivity.
  - cbn. lia.
  - reflexivity.
Qed.

Lemma get_tts_two_failures_witness :
  let st := fresh kore_engine (fails_once unavailable (Returns no_candidates)) in
  let call := call_for kore_engine "hello" None None in
  let no_audio := HomeAssistantError "No audio returned from Gemini TTS" None in
  let run := get_tts "hello" None None None st in
  try_result (remote st 0 call) = inl unavailable /\
  try_result (remote st 1 call) = inl no_audio /\
  fst run = inl (HomeAssistantError final_msg (Some no_audio)) /\
  calls_of (new_events st (snd run)) = [call; call] /\
  calls_made (trace (snd run)) = 0 + 2 /\
  new_events st (snd run) =
    [GenerateContent call; failure_record 1 unavailable; Sleep 1; retry_record 2;
     GenerateContent call; failure_record 2 no_audio].
Proof.
  cbn zeta. split; [reflexivity|]. split; [reflexivity|].
  apply (get_tts_two_failures "hello" None None None
           (fresh kore_engine (fails_once unavailable (Returns no_candidates)))
           unavailable
           (HomeAssistantError "No audio returned from Gemini TTS" None));
    reflexivity.
Defined.

(** After a failed first attempt the run follows the retry policy. *)
Lemma get_tts_after_failed_first text speed instructions voice st e1 :
  let call := call_for (self st) text instructions voice in
  let n := calls_made (trace st) in
  let run := get_tts text speed instructions voice st in
  try_result (remote st n call) = inl e1 ->
  (fst run, new_events st (snd run)) =
  after_failed_first speed call e1 (try_result (remote st (S n) call)).
Proof.
  intros call n run H1. subst run. rewrite get_tts_run. fold call n.
  rewrite H1. unfold after_failed_first.
  destruct (try_result (remote st (S n) call)) as [e2|audio];
    cbn [fst snd]; rewrite <- !app_assoc;
    erewrite new_events_app by reflexivity; reflexivity.
Qed.



(** C4. When the remote call raises on the first attempt and the second
    attempt returns a response whose inline data decodes, [get_tts] returns
    the bytes decoded from that second response, and the only sleep of the
    run, of one second, lies between the two calls. *)
Theorem get_tts_retry_succeeds text speed instructions voice st e1 response s
        audio_bytes :
  let call := call_for (self st) text instructions voice in
  let n := calls_made (trace st) in
  remote st n call = Raises e1 ->
  remote st (S n) call = Returns response ->
  inline_audio_data response = Some s ->
  Base64.b64decode (Some s) = inr audio_bytes ->
  let run := get_tts text speed instructions voice st in
  fst run = inr {| audio_content := audio_bytes |} /\
  new_events st (snd run) =
    (speed_warning speed ++
     [GenerateContent call; failure_record 1 e1; Sleep 1; retry_record 2;
      GenerateContent call])%list /\
  filter is_sleep (new_events st (snd run)) = [Sleep 1].
Proof.
  intros call n H1 H2 Hdata Hdec run. subst run.
  assert (Hread : read_response response = inr {| audio_content := audio_bytes |}).
  { apply read_response_ok. exists s. split; assumption. }
  rewrite get_tts_run. fold call n.
  rewrite H1, H2. cbn [try_result]. rewrite Hread. cbn [fst snd].
  rewrite <- app_assoc.
  erewrite new_events_app by reflexivity.
  split; [reflexivity|]. split; [reflexivity|].
  rewrite filter_app. destruct speed; reflexivity.
Qed.

Lemma get_tts_retry_succeeds_witness :
  let response := audio_response "aGVsbG8=" in
  let st := fresh kore_engine (fails_once unavailable (Returns response)) in
  let call := call_for kore_engine "hello" None None in
  let run := get_tts "hello" None None None st in
  remote st 0 call = Raises unavailable /\
  remote st 1 call = Returns response /\
  inline_audio_data response = Some "aGVsbG8=" /\
  Base64.b64decode (Some "aGVsbG8=") = inr ["h"; "e"; "l"; "l"; "o"]%byte /\
  fst run = inr {| audio_content := ["h"; "e"; "l"; "l"; "o"]%byte |} /\
  new_events st (snd run) =
    [GenerateContent call; failure_record 1 unavailable; Sleep 1; retry_record 2;
     GenerateContent call] /\
  filter is_sleep (new_events st (snd run)) = [Sleep 1].
Proof.
  cbn zeta. do 4 (split; [reflexivity|]).
  apply (get_tts_retry_succeeds "hello" None None None
           (fresh kore_engine
                  (fails_once unavailable (Returns (audio_response "aGVsbG8="))))
           unavailable (audio_response "aGVsbG8=") "aGVsbG8="
           ["h"; "e"; "l"; "l"; "o"]%byte);
    reflexivity.
Defined.

(** ** The request: prompt and voice *)

(** C3, as the code has it. For every text and every non-empty instructions
    string [X], each prompt sent to the remote call is [X], a newline, then
    the text; without instructions each prompt is the text itself. *)
Theorem prompt_with_instructions text X speed voice st :
  X <> "" ->
  let with_X :=
    calls_of (new_events st (snd (get_tts text speed (Some X) voice st))) in
  let without :=
    calls_of (new_events st (snd (get_tts text speed None voice st))) in
  (with_X <> [] /\
   Forall (fun call => contents call = X ++ newline ++ text) with_X) /\
  (without <> [] /\ Forall (fun call => contents call = text) without).
Proof.
  intros HX. cbn zeta. split.
  - apply get_tts_calls_all
      with (P := fun call => contents call = X ++ newline ++ text).
    cbn [call_for contents]. unfold prompt_for.
    rewrite (truthy_nonempty X HX). reflexivity.
  - apply get_tts_calls_all with (P := fun call => contents call = text).
    reflexivity.
Qed.

Lemma prompt_with_instructions_witness :
  let st := fresh kore_engine (always (Returns (audio_response "aGVsbG8="))) in
  let with_X :=
    calls_of (new_events st
                (snd (get_tts "hello" None (Some "Speak slowly:") None st))) in
  let without :=
    calls_of (new_events st (snd (get_tts "hello" None None None st))) in
  "Speak slowly:" <> "" /\
  (with_X <> [] /\
   Forall (fun call => contents call = "Speak slowly:" ++ newline ++ "hello")
          with_X) /\
  (without <> [] /\ Forall (fun call => contents call = "hello") without).
Proof.
  cbn zeta. split; [discriminate|].
  apply (prompt_with_instructions "hello" "Speak slowly:" None None
           (fresh kore_engine (always (Returns (audio_response "aGVsbG8="))))).
  discriminate.
Defined.

(** C3 as it is stated fails at the empty instructions string: the prompt
    sent is the text, not a newline followed by the text. *)
Lemma prompt_with_empty_instructions_counterexample :
  let st := fresh kore_engine (always (Returns (audio_response "aGVsbG8="))) in
  let X := "" in
  let text := "hello" in
  let calls :=
    calls_of (new_events st (snd (get_tts text None (Some X) None st))) in
  map contents calls = ["hello"] /\
  ~ Forall (fun call => contents call = X ++ newline ++ text) calls.
Proof.
  split; [reflexivity|].
  intros H. inversion H as [|call rest Hhead _]. discriminate Hhead.
Qed.

(** C10. With the empty string for instructions, [get_tts] does exactly
    what it does without instructions, and every prompt it sends is the
    text: the empty string is not prefixed. *)
Theorem empty_instructions_as_none text speed voice st :
  get_tts text speed (Some "") voice st = get_tts text speed None voice st /\
  let calls :=
    calls_of (new_events st (snd (get_tts text speed (Some "") voice st))) in
  calls <> [] /\ Forall (fun call => contents call = text) calls.
Proof.
  split.
  - reflexivity.
  - apply get_tts_calls_all with (P := fun call => contents call = text).
    reflexivity.
Qed.

(** C5. On an engine constructed with default voice [default], every
    remote call of [get_tts] carries one voice: the override of the call
    when there is one, and [default] otherwise. A constructed engine always
    has its default. *)
Theorem voice_override_or_default genai_Client api_key default model espeed url
        evs engine text speed instructions voice st :
  __init__ genai_Client api_key default model espeed url = (evs, inr engine) ->
  self st = engine ->
  let calls :=
    calls_of (new_events st (snd (get_tts text speed instructions voice st))) in
  _voice engine = default /\
  calls <> [] /\
  Forall (fun call =>
            call_voice call =
            match voice with Some override => override | None => default end)
         calls.
Proof.
  intros Hinit Hself calls.
  destruct (init_fields _ _ _ _ _ _ _ _ Hinit) as (_ & Hvoice & _).
  split; [exact Hvoice|].
  subst calls.
  apply get_tts_calls_all
    with (P := fun call => call_voice call =
                           match voice with Some o => o | None => default end).
  unfold call_voice, call_for, generate_config_for, voice_for; cbn.
  rewrite Hself, Hvoice. destruct voice; reflexivity.
Qed.

Lemma voice_override_or_default_witness :
  let st := fresh kore_engine (always (Returns (audio_response "aGVsbG8="))) in
  let overridden :=
    calls_of (new_events st (snd (get_tts "hello" None None (Some "Puck") st))) in
  let defaulted :=
    calls_of (new_events st (snd (get_tts "hello" None None None st))) in
  __init__ accepting_Client "secret" "Kore" "gemini-2.5-flash-preview-tts"
           default_speed None = ([], inr kore_engine) /\
  self st = kore_engine /\
  (_voice kore_engine = "Kore" /\ overridden <> [] /\
   Forall (fun call => call_voice call = "Puck") overridden) /\
  (_voice kore_engine = "Kore" /\ defaulted <> [] /\
   Forall (fun call => call_voice call = "Kore") defaulted).
Proof.
  cbn zeta. do 2 (split; [reflexivity|]). split.
  - apply (voice_override_or_default accepting_Client "secret" "Kore"
             "gemini-2.5-flash-preview-tts" default_speed None [] kore_engine
             "hello" None None (Some "Puck")
             (fresh kore_engine (always (Returns (audio_response "aGVsbG8=")))));
      reflexivity.
  - apply (voice_override_or_default accepting_Client "secret" "Kore"
             "gemini-2.5-flash-preview-tts" default_speed None [] kore_engine
             "hello" None None None
             (fresh kore_engine (always (Returns (audio_response "aGVsbG8=")))));
      reflexivity.
Defined.

(** ** The result *)

(** C6. When a call succeeds, the response it read is the one of the last
    remote call made; if the first part of that response carries the
    string [s] as inline data, the bytes of the returned [AudioResponse] are
    the base64 decoding of [s]: when [s] is the standard encoding of some
    bytes, these bytes are returned. *)
Theorem get_tts_returns_decoded_data text speed instructions voice st audio st'
        response s :
  get_tts text speed instructions voice st = (inr audio, st') ->
  remote st (calls_made (trace st') - 1)
         (call_for (self st) text instructions voice) = Returns response ->
  inline_audio_data response = Some s ->
  Base64.b64decode (Some s) = inr (audio_content audio) /\
  (forall audio_bytes,
      s = Base64.b64encode audio_bytes -> audio_content audio = audio_bytes).
Proof.
  intros Hrun Hremote Hdata.
  assert (Hgoal : Base64.b64decode (Some s) = inr (audio_content audio)).
  2:{ split; [exact Hgoal|]. intros audio_bytes ->.
      rewrite Base64Facts.b64decode_b64encode in Hgoal. congruence. }
  revert Hrun Hremote Hdata.
  rewrite get_tts_run.
  set (call := call_for (self st) text instructions voice).
  set (n := calls_made (trace st)).
  assert (Hdecoded : forall k,
             try_result (remote st k call) = inr audio ->
             remote st k call = Returns response ->
             inline_audio_data response = Some s ->
             Base64.b64decode (Some s) = inr (audio_content audio)).
  { intros k Htry Hremote Hdata. rewrite Hremote in Htry. cbn in Htry.
    apply read_response_ok in Htry. destruct Htry as (s' & Hs' & Hdec).
    congruence. }
  destruct (try_result (remote st n call)) as [e1|a1] eqn:H1.
  - destruct (try_result (remote st (S n) call)) as [e2|a2] eqn:H2;
      [discriminate|].
    intros H. injection H as -> <-.
    rewrite trace_set_trace, <- app_assoc, !calls_made_app,
      calls_made_speed_warning.
    fold n.
    match goal with
    | |- context [calls_made (?ev :: ?evs)] =>
        change (calls_made (ev :: evs)) with 2
    end.
    replace (n + (0 + 2) - 1) with (S n) by lia.
    apply Hdecoded. exact H2.
  - intros H. injection H as -> <-.
    rewrite trace_set_trace, <- app_assoc, !calls_made_app,
      calls_made_speed_warning.
    fold n.
    match goal with
    | |- context [calls_made (?ev :: ?evs)] =>
        change (calls_made (ev :: evs)) with 1
    end.
    replace (n + (0 + 1) - 1) with n by lia.
    apply Hdecoded. exact H1.
Qed.

Lemma get_tts_returns_decoded_data_witness :
  let response := audio_response "aGVsbG8=" in
  let st := fresh kore_engine (fails_once unavailable (Returns response)) in
  let call := call_for kore_engine "hello" None None in
  let run := get_tts "hello" None None None st in
  let hello := {| audio_content := ["h"; "e"; "l"; "l"; "o"]%byte |} in
  run = (inr hello, snd run) /\
  remote st (calls_made (trace (snd run)) - 1) call = Returns response /\
  inline_audio_data response = Some "aGVsbG8=" /\
  Base64.b64decode (Some "aGVsbG8=") = inr (audio_content hello) /\
  (forall audio_bytes,
      "aGVsbG8=" = Base64.b64encode audio_bytes ->
      audio_content hello = audio_bytes).
Proof.
  cbn zeta. do 3 (split; [reflexivity|]).
  apply (get_tts_returns_decoded_data "hello" None None None
           (fresh kore_engine
                  (fails_once unavailable (Returns (audio_response "aGVsbG8="))))
           {| audio_content := ["h"; "e"; "l"; "l"; "o"]%byte |}
           (snd (get_tts "hello" None None None
                   (fresh kore_engine
                      (fails_once unavailable
                                  (Returns (audio_response "aGVsbG8="))))))
           (audio_response "aGVsbG8=") "aGVsbG8=");
    reflexivity.
Defined.

(** ** The speed argument *)

(** C7. Two runs that differ only in the speed given return the same
    result, make the same remote calls (model, prompt and configuration),
    leave the same engine and agree on every event but the warning; the
    warning is written exactly when a speed is given, and carries it. *)
Theorem speed_is_ignored text speed1 speed2 instructions voice st :
  let run1 := get_tts text speed1 instructions voice st in
  let run2 := get_tts text speed2 instructions voice st in
  fst run1 = fst run2 /\
  calls_of (new_events st (snd run1)) = calls_of (new_events st (snd run2)) /\
  filter not_warning (new_events st (snd run1)) =
  filter not_warning (new_events st (snd run2)) /\
  self (snd run1) = self (snd run2) /\
  filter is_warning (new_events st (snd run1)) = speed_warning speed1.
Proof.
  cbn zeta. rewrite !get_tts_run.
  set (call := call_for (self st) text instructions voice).
  set (n := calls_made (trace st)).
  assert (Hnw : forall speed, filter not_warning (speed_warning speed) = [])
    by (intros [?|]; reflexivity).
  assert (Hw : forall speed,
             filter is_warning (speed_warning speed) = speed_warning speed)
    by (intros [?|]; reflexivity).
  assert (Hc : forall speed, calls_of (speed_warning speed) = [])
    by (intros [?|]; reflexivity).
  destruct (try_result (remote st n call)) as [e1|a1];
    [destruct (try_result (remote st (S n) call)) as [e2|a2]|];
    cbn [fst snd]; rewrite <- !app_assoc;
    repeat (erewrite new_events_app by reflexivity);
    rewrite !calls_of_app, !filter_app, !Hnw, !Hw, !Hc;
    cbn; rewrite ?app_nil_r; repeat split.
Qed.

(** ** The language list *)

(** C8. [get_supported_langs] returns one and the same list in every state,
    whatever the engine and whatever [get_tts] calls were made before, and
    changes nothing; the list has 24 entries, in the order of the source,
    each a language-region tag. *)
Theorem get_supported_langs_fixed :
  exists langs,
    langs = [ "ar-EG"; "de-DE"; "en-US"; "es-US"; "fr-FR"; "hi-IN";
              "id-ID"; "it-IT"; "ja-JP"; "ko-KR"; "nl-NL"; "pl-PL";
              "pt-BR"; "ru-RU"; "th-TH"; "tr-TR"; "vi-VN"; "ro-RO";
              "uk-UA"; "bn-BD"; "en-IN"; "mr-IN"; "ta-IN"; "te-IN" ] /\
    length langs = 24 /\
    forallb is_locale_tag langs = true /\
    (forall st, get_supported_langs st = (inr langs, st)) /\
    (forall engine1 engine2 remote1 remote2 trace1 trace2 calls,
        fst (get_supported_langs
               {| self := engine1; remote := remote1; trace := trace1 |}) =
        fst (get_supported_langs
               (run_calls calls
                  {| self := engine2; remote := remote2; trace := trace2 |}))).
Proof.
  eexists. split; [reflexivity|].
  split; [reflexivity|]. split; [reflexivity|]. split.
  - intros st. reflexivity.
  - intros. reflexivity.
Qed.

(** ** The engine is never written *)

(** C9. After any sequence of [get_tts] calls on a constructed engine, with
    or without voice overrides, the engine is the one that was constructed:
    its default voice, model, API key, speed and URL are the arguments of
    the constructor. *)
Theorem get_tts_preserves_engine genai_Client api_key voice model speed url evs
        engine calls st :
  __init__ genai_Client api_key voice model speed url = (evs, inr engine) ->
  self st = engine ->
  let st' := run_calls calls st in
  self st' = engine /\
  _voice (self st') = voice /\ _model (self st') = model /\
  _api_key (self st') = api_key /\ _speed (self st') = speed /\
  _url (self st') = url.
Proof.
  intros Hinit Hself st'. subst st'.
  rewrite run_calls_self, Hself.
  destruct (init_fields _ _ _ _ _ _ _ _ Hinit) as (Hk & Hv & Hm & Hs & Hu).
  repeat split; assumption.
Qed.

Lemma get_tts_preserves_engine_witness :
  let st := fresh kore_engine
                  (fails_once unavailable (Returns (audio_response "aGVsbG8="))) in
  let st' :=
    run_calls [ {| arg_text := "hello"; arg_speed := Some slow_speed;
                   arg_instructions := Some "Speak slowly:";
                   arg_voice := Some "Puck" |};
                {| arg_text := "again"; arg_speed := None;
                   arg_instructions := None; arg_voice := None |} ] st in
  __init__ accepting_Client "secret" "Kore" "gemini-2.5-flash-preview-tts"
           default_speed None = ([], inr kore_engine) /\
  self st = kore_engine /\
  self st' = kore_engine /\
  _voice (self st') = "Kore" /\
  _model (self st') = "gemini-2.5-flash-preview-tts" /\
  _api_key (self st') = "secret" /\ _speed (self st') = default_speed /\
  _url (self st') = None.
Proof.
  cbn zeta. do 2 (split; [reflexivity|]).
  apply (get_tts_preserves_engine accepting_Client "secret" "Kore"
           "gemini-2.5-flash-preview-tts" default_speed None [] kore_engine);
    reflexivity.
Defined.

(** ** The loop for any number of retries *)

(** The run of the loop: the attempts that fail with [excs] are retried,
    then a last attempt ends the run. *)
Lemma retry_loop_trace prompt generate_config retries :
  forall d attempt st,
    retries - attempt = d ->
    let call := {| model := _model (self st); contents := prompt;
                   config := generate_config |} in
    let n := calls_made (trace st) in
    let run := retry_loop prompt generate_config retries attempt st in
    exists excs,
      length excs <= d /\
      (forall i e,
          nth_error excs i = Some e ->
          try_result (remote st (n + i) call) = inl e) /\
      match fst run with
      | inr audio =>
          try_result (remote st (n + length excs) call) = inr audio /\
          snd run =
            set_trace st
              (trace st ++ retried_events call attempt excs
                 ++ [GenerateContent call])%list
      | inl exc =>
          exists e,
            try_result (remote st (n + length excs) call) = inl e /\
            exc = HomeAssistantError final_msg (Some e) /\
            length excs = d /\
            snd run =
              set_trace st
                (trace st ++ retried_events call attempt excs
                   ++ [GenerateContent call;
                       failure_record (attempt + length excs + 1) e])%list
      end.
Proof.
  induction d as [|d IH]; intros attempt st Hd; cbn zeta;
    rewrite retry_loop_turn, try_body_run; cbn zeta;
    set (call := {| model := _model (self st); contents := prompt;
                    config := generate_config |});
    set (n := calls_made (trace st));
    destruct (try_result (remote st n call)) as [e1|audio] eqn:H1.
  - replace (attempt <? retries)%nat with false
      by (symmetry; apply Nat.ltb_ge; lia).
    exists []. cbn [fst snd length retried_events app].
    split; [lia|]. split; [intros [|i] e; discriminate|].
    exists e1. rewrite !Nat.add_0_r, set_trace_set_trace, trace_set_trace,
                 <- app_assoc.
    repeat split. exact H1.
  - exists []. cbn [fst snd length retried_events app].
    split; [lia|]. split; [intros [|i] e; discriminate|].
    rewrite Nat.add_0_r. split; [exact H1 | reflexivity].
  - replace (attempt <? retries)%nat with true
      by (symmetry; apply Nat.ltb_lt; lia).
    rewrite !set_trace_set_trace, !trace_set_trace, <- !app_assoc. cbn [app].
    match goal with
    | |- context [retry_loop _ _ _ (attempt + 1) ?st3] =>
        destruct (IH (attempt + 1) st3 ltac:(lia)) as (excs & Hlen & Hexcs & Hres);
        set (st3' := st3) in *
    end.
    cbn zeta in Hexcs, Hres.
    assert (Hn : calls_made (trace st3') = S n).
    { subst st3'. rewrite trace_set_trace, calls_made_app. fold n. cbn. lia. }
    rewrite Hn in Hexcs, Hres.
    change (self st3') with (self st) in Hexcs, Hres.
    change (remote st3') with (remote st) in Hexcs, Hres.
    fold call in Hexcs, Hres.
    exists (e1 :: excs). cbn [length retried_events].
    split; [lia|]. split.
    + intros [|i] e Hi.
      * injection Hi as <-. rewrite Nat.add_0_r. exact H1.
      * replace (n + S i) with (S n + i) by lia. exact (Hexcs i e Hi).
    + replace (n + S (length excs)) with (S n + length excs) by lia.
      replace (attempt + S (length excs) + 1)
        with (attempt + 1 + length excs + 1) by lia.
      destruct (fst (retry_loop _ _ _ _ _)) as [exc|audio'].
      * destruct Hres as (e & Hlast & -> & Hlen' & Hsnd).
        exists e. split; [exact Hlast|]. split; [reflexivity|].
        split; [lia|]. rewrite Hsnd. subst st3'.
        rewrite set_trace_set_trace, trace_set_trace, <- !app_assoc.
        reflexivity.
      * destruct Hres as (Hlast & Hsnd). split; [exact Hlast|].
        rewrite Hsnd. subst st3'.
        rewrite set_trace_set_trace, trace_set_trace, <- !app_assoc.
        reflexivity.
  - exists []. cbn [fst snd length retried_events app].
    split; [lia|]. split; [intros [|i] e; discriminate|].
    rewrite Nat.add_0_r. split; [exact H1 | reflexivity].
Qed.

(** X1. For any number of retries and any attempt counter, the run of the
    loop is this: some attempts fail, at most [retries - attempt] of them,
    and for each the loop makes the remote call, writes the error record,
    sleeps one second and writes the retry record; then a last attempt
    either succeeds, and the run ends on its call with its audio, or fails
    when no retry is left, and the run ends on its error record with the
    final error caused by its exception. Every sleep thus lies between two
    consecutive calls. The engine is unchanged. *)
Theorem retry_loop_bounded prompt generate_config retries attempt st :
  let call := {| model := _model (self st); contents := prompt;
                 config := generate_config |} in
  let n := calls_made (trace st) in
  let run := retry_loop prompt generate_config retries attempt st in
  let evs := new_events st (snd run) in
  exists excs,
    length excs <= retries - attempt /\
    (forall i e,
        nth_error excs i = Some e ->
        try_result (remote st (n + i) call) = inl e) /\
    self (snd run) = self st /\
    match fst run with
    | inr audio =>
        try_result (remote st (n + length excs) call) = inr audio /\
        evs = (retried_events call attempt excs ++ [GenerateContent call])%list
    | inl exc =>
        exists e,
          try_result (remote st (n + length excs) call) = inl e /\
          exc = HomeAssistantError final_msg (Some e) /\
          length excs = retries - attempt /\
          evs = (retried_events call attempt excs
                   ++ [GenerateContent call;
                       failure_record (attempt + length excs + 1) e])%list
    end.
Proof.
  cbn zeta.
  destruct (retry_loop_trace prompt generate_config retries
              (retries - attempt) attempt st eq_refl)
    as (excs & Hlen & Hexcs & Hres).
  cbn zeta in *. exists excs.
  split; [exact Hlen|]. split; [exact Hexcs|].
  destruct (fst (retry_loop _ _ _ _ _)) as [exc|audio].
  - destruct Hres as (e & Hlast & -> & Hlen' & Hsnd). rewrite Hsnd.
    split; [reflexivity|]. exists e.
    erewrite new_events_app by reflexivity. auto.
  - destruct Hres as (Hlast & Hsnd). rewrite Hsnd.
    split; [reflexivity|].
    erewrite new_events_app by reflexivity. auto.
Qed.

(** ** The runs of [get_tts] *)

(** X2. When the first attempt succeeds, [get_tts] returns its audio after
    a single remote call: no error record, no sleep, no retry. *)
Theorem get_tts_first_attempt_succeeds text speed instructions voice st audio :
  let call := call_for (self st) text instructions voice in
  try_result (remote st (calls_made (trace st)) call) = inr audio ->
  let run := get_tts text speed instructions voice st in
  fst run = inr audio /\
  new_events st (snd run) = (speed_warning speed ++ [GenerateContent call])%list.
Proof.
  intros call H run. subst run. rewrite get_tts_run. fold call.
  rewrite H. cbn [fst snd]. rewrite <- app_assoc.
  erewrite new_events_app by reflexivity.
  split; reflexivity.
Qed.

Lemma get_tts_first_attempt_succeeds_witness :
  let st := fresh kore_engine (always (Returns (audio_response "aGVsbG8="))) in
  let call := call_for kore_engine "hello" (Some "Speak slowly:") None in
  let audio := {| audio_content := ["h"; "e"; "l"; "l"; "o"]%byte |} in
  let run := get_tts "hello" (Some slow_speed) (Some "Speak slowly:") None st in
  try_result (remote st (calls_made (trace st)) call) = inr audio /\
  fst run = inr audio /\
  new_events st (snd run) =
    [log_warning warning_fmt [ArgFloat slow_speed]; GenerateContent call].
Proof.
  cbn zeta. split; [reflexivity|].
  apply (get_tts_first_attempt_succeeds "hello" (Some slow_speed)
           (Some "Speak slowly:") None
           (fresh kore_engine (always (Returns (audio_response "aGVsbG8="))))).
  reflexivity.
Defined.

(** X3. Every run of [get_tts] has one of three courses. The first
    attempt succeeds: the events are the speed warning, if any, and one
    remote call. The first attempt fails and the second succeeds: the
    events are the warning, the call, the error record, one sleep of one
    second, the retry record and the second call. Both fail: the same
    events followed by the second error record, and the final error. The
    sleep thus lies between the two calls and nowhere else, and the remote
    service is left as it is. *)
Theorem get_tts_effects_bounded text speed instructions voice st :
  let call := call_for (self st) text instructions voice in
  let n := calls_made (trace st) in
  let run := get_tts text speed instructions voice st in
  let evs := new_events st (snd run) in
  remote (snd run) = remote st /\
  match try_result (remote st n call) with
  | inr audio =>
      fst run = inr audio /\
      evs = (speed_warning speed ++ [GenerateContent call])%list
  | inl e1 =>
      match try_result (remote st (S n) call) with
      | inr audio =>
          fst run = inr audio /\
          evs = (speed_warning speed ++
                 [GenerateContent call; failure_record 1 e1; Sleep 1;
                  retry_record 2; GenerateContent call])%list
      | inl e2 =>
          fst run = inl (HomeAssistantError final_msg (Some e2)) /\
          evs = (speed_warning speed ++
                 [GenerateContent call; failure_record 1 e1; Sleep 1;
                  retry_record 2; GenerateContent call;
                  failure_record 2 e2])%list
      end
  end.
Proof.
  cbn zeta. rewrite get_tts_run.
  set (call := call_for (self st) text instructions voice).
  destruct (try_result _) as [e1|a1];
    [destruct (try_result _) as [e2|a2]|];
    cbn [fst snd]; rewrite <- app_assoc;
    erewrite new_events_app by reflexivity;
    repeat split.
Qed.

(** X4. Whatever error [get_tts] raises is the final [HomeAssistantError],
    and it raises it only after two attempts that both failed; its cause is
    the exception of the second attempt, the one of the first being kept in
    the log alone. *)
Theorem get_tts_error_is_final text speed instructions voice st exc :
  let call := call_for (self st) text instructions voice in
  let n := calls_made (trace st) in
  let run := get_tts text speed instructions voice st in
  fst run = inl exc ->
  exists e1 e2,
    try_result (remote st n call) = inl e1 /\
    try_result (remote st (S n) call) = inl e2 /\
    exc = HomeAssistantError final_msg (Some e2) /\
    filter is_error_log (new_events st (snd run)) =
      [failure_record 1 e1; failure_record 2 e2] /\
    calls_made (trace (snd run)) = n + 2.
Proof.
  cbn zeta. rewrite get_tts_run.
  set (call := call_for (self st) text instructions voice).
  set (n := calls_made (trace st)).
  destruct (try_result (remote st n call)) as [e1|a1]; [|discriminate].
  destruct (try_result (remote st (S n) call)) as [e2|a2]; [|discriminate].
  cbn [fst snd]. intros H. injection H as <-.
  exists e1, e2. rewrite <- app_assoc.
  erewrite new_events_app by reflexivity.
  rewrite trace_set_trace, !calls_made_app, calls_made_speed_warning, filter_app.
  fold n. do 3 (split; [reflexivity|]). split.
  - destruct speed; reflexivity.
  - cbn. lia.
Qed.

Lemma get_tts_error_is_final_witness :
  let st := fresh kore_engine (fails_once unavailable (Returns no_candidates)) in
  let call := call_for kore_engine "hello" None None in
  let no_audio := HomeAssistantError "No audio returned from Gemini TTS" None in
  let run := get_tts "hello" None None None st in
  fst run = inl (HomeAssistantError final_msg (Some no_audio)) /\
  exists e1 e2,
    try_result (remote st 0 call) = inl e1 /\
    try_result (remote st 1 call) = inl e2 /\
    HomeAssistantError final_msg (Some no_audio) =
      HomeAssistantError final_msg (Some e2) /\
    filter is_error_log (new_events st (snd run)) =
      [failure_record 1 e1; failure_record 2 e2] /\
    calls_made (trace (snd run)) = 0 + 2.
Proof.
  cbn zeta. split; [reflexivity|].
  apply (get_tts_error_is_final "hello" None None None
           (fresh kore_engine (fails_once unavailable (Returns no_candidates)))).
  reflexivity.
Defined.

(** X5. [get_tts] returns an audio exactly when the first attempt gives
    it, or the first attempt fails and the second gives it. *)
Theorem get_tts_success_iff text speed instructions voice st audio :
  let call := call_for (self st) text instructions voice in
  let n := calls_made (trace st) in
  fst (get_tts text speed instructions voice st) = inr audio <->
  try_result (remote st n call) = inr audio \/
  (exists e1, try_result (remote st n call) = inl e1 /\
              try_result (remote st (S n) call) = inr audio).
Proof.
  cbn zeta. rewrite get_tts_run.
  set (call := call_for (self st) text instructions voice).
  set (n := calls_made (trace st)).
  destruct (try_result (remote st n call)) as [e1|a1];
    [destruct (try_result (remote st (S n) call)) as [e2|a2]|];
    cbn [fst]; split.
  - discriminate.
  - intros [H | (e & _ & H)]; discriminate.
  - intros H. right. exists e1. split; [reflexivity | exact H].
  - intros [H | (e & _ & H)]; [discriminate | exact H].
  - intros H. left. exact H.
  - intros [H | (e & H & _)]; [exact H | discriminate].
Qed.

(** ** Reading the response *)

Lemma b64decode_error_kind data exc :
  Base64.b64decode data = inl exc -> is_decode_error exc.
Proof.
  unfold Base64.b64decode, Base64.a2b_base64.
  destruct data as [s|]; [|intros H; injection H as <-; exact I].
  destruct (Base64.is_ascii s); [|intros H; injection H as <-; exact I].
  destruct (Base64.a2b_loop s 0 0 0 []) as [out|quad_pos out]; [discriminate|].
  destruct (quad_pos =? 0)%Z; [discriminate|].
  destruct (quad_pos =? 1)%Z; intros H; injection H as <-; exact I.
Qed.

(** With inline data on the path, reading the response is decoding it. *)
Lemma read_response_data response s :
  inline_audio_data response = Some s ->
  read_response response =
  match Base64.b64decode (Some s) with
  | inl exc => inl exc
  | inr audio_bytes => inr {| audio_content := audio_bytes |}
  end.
Proof.
  unfold read_response, inline_audio_data.
  destruct (candidates response) as [[|candidate rest]|]; try discriminate.
  destruct (content candidate) as [c|]; try discriminate.
  destruct (parts c) as [[|part0 ps]|]; try discriminate.
  destruct (inlineData part0) as [blob|]; try discriminate.
  intros ->. reflexivity.
Qed.

(** With an inline data object on the path, reading the response is
    decoding its data. *)
Lemma read_response_blob response blob :
  inline_blob response = Some blob ->
  read_response response =
  match Base64.b64decode (data blob) with
  | inl exc => inl exc
  | inr audio_bytes => inr {| audio_content := audio_bytes |}
  end.
Proof.
  unfold read_response, inline_blob.
  destruct (candidates response) as [[|candidate rest]|]; try discriminate.
  destruct (content candidate) as [c|]; try discriminate.
  destruct (parts c) as [[|part0 ps]|]; try discriminate.
  intros ->. reflexivity.
Qed.

(** X6. When the first part has an inline data object whose data does not
    decode (no data at all, a character that is not ASCII, wrong padding),
    the [try] body raises the decoder's exception, a [TypeError], a
    [ValueError] or a [binascii.Error], and the loop applies the retry
    policy to it: at the first attempt the run logs it, sleeps one second
    and calls again, and ends as the second attempt ends; at the second
    attempt after a failed first one the run raises the final error with
    the decoder's exception as its cause. *)
Theorem undecodable_data_is_retried response blob exc :
  inline_blob response = Some blob ->
  Base64.b64decode (data blob) = inl exc ->
  is_decode_error exc /\
  read_response response = inl exc /\
  (forall text speed instructions voice st,
      let call := call_for (self st) text instructions voice in
      let n := calls_made (trace st) in
      let run := get_tts text speed instructions voice st in
      (remote st n call = Returns response ->
       (fst run, new_events st (snd run)) =
       after_failed_first speed call exc (try_result (remote st (S n) call)))
      /\
      (forall e1,
          try_result (remote st n call) = inl e1 ->
          remote st (S n) call = Returns response ->
          (fst run, new_events st (snd run)) =
          after_failed_first speed call e1 (inl exc))).
Proof.
  intros Hblob Hdec.
  assert (Hread : read_response response = inl exc)
    by (rewrite (read_response_blob _ _ Hblob), Hdec; reflexivity).
  split; [exact (b64decode_error_kind _ _ Hdec)|]. split; [exact Hread|].
  intros text speed instructions voice st. cbn zeta. split.
  - intros Hremote. apply get_tts_after_failed_first.
    rewrite Hremote. exact Hread.
  - intros e1 H1 H2.
    rewrite (get_tts_after_failed_first _ _ _ _ _ e1 H1), H2.
    cbn [try_result]. rewrite Hread. reflexivity.
Qed.

Lemma undecodable_data_is_retried_witness :
  let bad_padding := audio_response "aGVsbG8" in
  let st := fresh kore_engine
                  (fails_once unavailable (Returns dataless_response)) in
  let st' := fresh kore_engine (always (Returns bad_padding)) in
  let call := call_for kore_engine "hello" None None in
  let padding_error := BinasciiError "Incorrect padding" in
  let type_error :=
    TypeError
      "argument should be a bytes-like object or ASCII string, not 'NoneType'" in
  inline_blob bad_padding = Some {| data := Some "aGVsbG8" |} /\
  Base64.b64decode (Some "aGVsbG8") = inl padding_error /\
  inline_blob dataless_response = Some {| data := None |} /\
  Base64.b64decode None = inl type_error /\
  (fst (get_tts "hello" None None None st'),
   new_events st' (snd (get_tts "hello" None None None st'))) =
    (inl (HomeAssistantError final_msg (Some padding_error)),
     [GenerateContent call; failure_record 1 padding_error; Sleep 1;
      retry_record 2; GenerateContent call; failure_record 2 padding_error]) /\
  (fst (get_tts "hello" None None None st),
   new_events st (snd (get_tts "hello" None None None st))) =
    (inl (HomeAssistantError final_msg (Some type_error)),
     [GenerateContent call; failure_record 1 unavailable; Sleep 1;
      retry_record 2; GenerateContent call; failure_record 2 type_error]).
Proof.
  cbn zeta. do 4 (split; [reflexivity|]). split.
  - exact (proj1 (proj2 (proj2 (undecodable_data_is_retried
                                  (audio_response "aGVsbG8")
                                  {| data := Some "aGVsbG8" |}
                                  (BinasciiError "Incorrect padding")
                                  eq_refl eq_refl))
                        "hello" None None None
                        (fresh kore_engine
                           (always (Returns (audio_response "aGVsbG8")))))
                 eq_refl).
  - exact (proj2 (proj2 (proj2 (undecodable_data_is_retried
                                  dataless_response {| data := None |} _
                                  eq_refl eq_refl))
                        "hello" None None None
                        (fresh kore_engine
                           (fails_once unavailable (Returns dataless_response))))
                 unavailable eq_refl eq_refl).
Defined.

(** X7. The errors of reading a response: it raises one of the two
    response errors exactly on the invalid shapes; the malformed-response
    error exactly when there is a first part and it has no inline data, so
    that an empty list of parts gives the no-audio error and never the
    malformed one; any other error comes from the decoder. *)
Theorem read_response_errors response :
  (invalid_shape response <->
   exists exc, is_response_error exc /\ read_response response = inl exc) /\
  (read_response response =
     inl (HomeAssistantError "Malformed response from Gemini TTS" None) <->
   exists candidate rest c part0 ps,
     candidates response = Some (candidate :: rest) /\
     content candidate = Some c /\
     parts c = Some (part0 :: ps) /\
     inlineData part0 = None) /\
  (forall exc,
      read_response response = inl exc ->
      is_response_error exc \/ is_decode_error exc).
Proof.
  split; [|split].
  - split; [apply invalid_shape_refused|].
    intros (exc & Herr & Hread). revert Hread.
    unfold read_response.
    destruct (candidates response) as [[|candidate rest]|] eqn:Hc.
    1, 3: intros _; apply zero_candidates; auto.
    destruct (content candidate) as [[ps]|] eqn:Hct.
    2: intros _; apply (zero_parts _ candidate rest); auto.
    cbn [parts]. destruct ps as [[|part0 ps]|].
    1, 3: intros _; apply (zero_parts _ candidate rest); auto.
    destruct (inlineData part0) as [blob|] eqn:Hi.
    2: intros _;
       apply (no_inline_data _ candidate rest _ part0 ps Hc Hct eq_refl Hi).
    destruct (Base64.b64decode (data blob)) as [e|bs] eqn:Hdec; [|discriminate].
    intros H. injection H as ->.
    apply b64decode_error_kind in Hdec.
    destruct Herr as [-> | ->]; contradiction.
  - unfold read_response. split.
    + destruct (candidates response) as [[|candidate rest]|]; try discriminate.
      destruct (content candidate) as [c|] eqn:Hct; try discriminate.
      destruct (parts c) as [[|part0 ps]|] eqn:Hp; try discriminate.
      destruct (inlineData part0) as [blob|] eqn:Hi.
      * destruct (Base64.b64decode (data blob)) as [e|bs] eqn:Hdec;
          [|discriminate].
        intros H. injection H as ->.
        apply b64decode_error_kind in Hdec. contradiction.
      * intros _. exists candidate, rest, c, part0, ps. auto.
    + intros (candidate & rest & c & part0 & ps & -> & -> & -> & ->).
      reflexivity.
  - intros exc. unfold read_response.
    destruct (candidates response) as [[|candidate rest]|].
    1, 3: intros H; injection H as <-; left; left; reflexivity.
    destruct (content candidate) as [c|].
    2: intros H; injection H as <-; left; left; reflexivity.
    destruct (parts c) as [[|part0 ps]|].
    1, 3: intros H; injection H as <-; left; left; reflexivity.
    destruct (inlineData part0) as [blob|].
    2: intros H; injection H as <-; left; right; reflexivity.
    destruct (Base64.b64decode (data blob)) as [e|bs] eqn:Hdec; [|discriminate].
    intros H. injection H as <-. right.
    exact (b64decode_error_kind _ _ Hdec).
Qed.

(** X8. A response that carries the standard base64 encoding of some bytes
    at the first attempt makes [get_tts] return exactly these bytes after a
    single remote call. *)
Theorem get_tts_round_trip text speed instructions voice st response audio_bytes :
  let call := call_for (self st) text instructions voice in
  remote st (calls_made (trace st)) call = Returns response ->
  inline_audio_data response = Some (Base64.b64encode audio_bytes) ->
  let run := get_tts text speed instructions voice st in
  fst run = inr {| audio_content := audio_bytes |} /\
  calls_of (new_events st (snd run)) = [call].
Proof.
  intros call Hremote Hdata run. subst run. rewrite get_tts_run. fold call.
  rewrite Hremote. cbn [try_result].
  rewrite (read_response_data _ _ Hdata), Base64Facts.b64decode_b64encode.
  cbn [fst snd]. rewrite <- app_assoc.
  erewrite new_events_app by reflexivity.
  rewrite calls_of_app. split; [reflexivity|].
  destruct speed; reflexivity.
Qed.

Lemma get_tts_round_trip_witness :
  let wav := ["R"%byte; "I"%byte; "F"%byte; "F"%byte; Byte.x00; Byte.xff; Byte.x10] in
  let response := audio_response (Base64.b64encode wav) in
  let st := fresh kore_engine (always (Returns response)) in
  let call := call_for kore_engine "hello" None None in
  let run := get_tts "hello" None None None st in
  remote st (calls_made (trace st)) call = Returns response /\
  inline_audio_data response = Some (Base64.b64encode wav) /\
  fst run = inr {| audio_content := wav |} /\
  calls_of (new_events st (snd run)) = [call].
Proof.
  cbn zeta. do 2 (split; [reflexivity|]).
  apply (get_tts_round_trip "hello" None None None
           (fresh kore_engine
              (always (Returns (audio_response
                                  (Base64.b64encode
                                     ["R"%byte; "I"%byte; "F"%byte; "F"%byte; Byte.x00; Byte.xff; Byte.x10])))))
           (audio_response
              (Base64.b64encode ["R"%byte; "I"%byte; "F"%byte; "F"%byte; Byte.x00; Byte.xff; Byte.x10]))
           ["R"%byte; "I"%byte; "F"%byte; "F"%byte; Byte.x00; Byte.xff; Byte.x10]);
    reflexivity.
Defined.

(** ** The decoder skips what is not in the alphabet *)

Lemma a2b_loop_skip c s2 :
  is_skipped c = true ->
  forall s1 quad_pos leftchar pads bin_data,
    Base64.a2b_loop (s1 ++ String c s2) quad_pos leftchar pads bin_data =
    Base64.a2b_loop (s1 ++ s2) quad_pos leftchar pads bin_data.
Proof.
  unfold is_skipped. intros Hc.
  apply andb_prop in Hc. destruct Hc as [Hc Htable].
  apply andb_prop in Hc. destruct Hc as [_ Hpad].
  apply negb_true_iff in Hpad.
  induction s1 as [|a s1 IH]; intros quad_pos leftchar pads bin_data.
  - cbn [append Base64.a2b_loop]. rewrite Hpad, Htable. reflexivity.
  - cbn [append Base64.a2b_loop].
    destruct (Ascii.eqb a Base64.BASE64_PAD).
    + destruct (_ && _); [reflexivity | apply IH].
    + cbn zeta. destruct (64 <=? Base64.table_a2b_base64 a)%Z; [apply IH|].
      destruct quad_pos as [|[[p|p|]|[p|p|]|]|p]; apply IH.
Qed.

Lemma is_ascii_skip c s2 :
  is_skipped c = true ->
  forall s1, Base64.is_ascii (s1 ++ String c s2) = Base64.is_ascii (s1 ++ s2).
Proof.
  unfold is_skipped, Base64.is_ascii. intros Hc.
  apply andb_prop in Hc. destruct Hc as [Hc _].
  apply andb_prop in Hc. destruct Hc as [Hascii _].
  induction s1 as [|a s1 IH]; cbn [append list_ascii_of_string forallb].
  - rewrite Hascii. reflexivity.
  - rewrite IH. reflexivity.
Qed.

(** X9. A character that is ASCII, is not the pad and is outside the
    base64 alphabet (a newline, a space) may stand anywhere in the data:
    [b64decode] gives the same bytes, or the same error, with and without
    it. *)
Theorem b64decode_skips s1 c s2 :
  is_skipped c = true ->
  Base64.b64decode (Some (s1 ++ String c s2)) =
  Base64.b64decode (Some (s1 ++ s2)).
Proof.
  intros Hc. unfold Base64.b64decode, Base64.a2b_base64.
  rewrite (is_ascii_skip c s2 Hc), (a2b_loop_skip c s2 Hc). reflexivity.
Qed.

Lemma b64decode_skips_witness :
  is_skipped "010"%char = true /\
  Base64.b64decode (Some ("aGVs" ++ String "010"%char "bG8=")) =
  Base64.b64decode (Some ("aGVs" ++ "bG8=")).
Proof.
  split; [reflexivity|].
  apply (b64decode_skips "aGVs" "010"%char "bG8="). reflexivity.
Defined.

(** ** The constructor *)

(** X10. The constructor fails exactly when the vendor's constructor
    raises on the key, whatever the other arguments; it then writes one
    error record and raises the initialisation error with the vendor's
    exception as its cause. When it succeeds it writes nothing and the
    engine holds the vendor's client. *)
Theorem init_fails_fast genai_Client api_key voice model speed url :
  let run := __init__ genai_Client api_key voice model speed url in
  match snd run with
  | inl exc =>
      exists e,
        genai_Client api_key = inl e /\
        exc = HomeAssistantError
                "Invalid Gemini API key or client initialization failed" (Some e) /\
        fst run = [log_exception "Failed to initialize Google Gemini client" [] e]
  | inr engine =>
      genai_Client api_key = inr (_client engine) /\ fst run = []
  end /\
  forall voice' model' speed' url',
    match snd run,
          snd (__init__ genai_Client api_key voice' model' speed' url') with
    | inl exc, inl exc' => exc = exc'
    | inr _, inr _ => True
    | _, _ => False
    end.
Proof.
  unfold __init__. destruct (genai_Client api_key) as [e|client]; cbn.
  - split; [exists e; auto | reflexivity].
  - split; [auto | exact (fun _ _ _ _ => I)].
Qed.

(** ** What [get_tts] reads of the engine *)

(** X11. [get_tts] reads the client of the engine, its model and, when the
    call gives no voice, its default voice, and no other field: on an
    engine with the same client that agrees on these, whatever its
    [_api_key], [_speed] and [_url], it returns the same result and
    produces the same trace, and it leaves that engine as it is. *)
Theorem get_tts_reads_voice_and_model text speed instructions voice st engine :
  _client engine = _client (self st) ->
  voice <> None \/ _voice engine = _voice (self st) ->
  _model engine = _model (self st) ->
  let run := get_tts text speed instructions voice st in
  let run' := get_tts text speed instructions voice (set_self st engine) in
  fst run' = fst run /\
  trace (snd run') = trace (snd run) /\
  self (snd run') = engine.
Proof.
  intros _ Hvoice Hmodel. cbn zeta. rewrite !get_tts_run.
  cbn [self remote trace set_self].
  replace (call_for engine text instructions voice)
    with (call_for (self st) text instructions voice)
    by (unfold call_for, voice_for; rewrite Hmodel;
        destruct voice as [v|], Hvoice as [Hv|Hv];
        try reflexivity; try contradiction; rewrite Hv; reflexivity).
  destruct (try_result _) as [e1|a1];
    [destruct (try_result _) as [e2|a2]|];
    repeat split.
Qed.

Lemma get_tts_reads_voice_and_model_witness :
  let st := fresh kore_engine
                  (fails_once unavailable (Returns (audio_response "aGVsbG8="))) in
  let run := get_tts "hello" None None None st in
  let run' := get_tts "hello" None None None (set_self st other_kore_engine) in
  _client other_kore_engine = _client (self st) /\
  (@None string <> None \/ _voice other_kore_engine = _voice (self st)) /\
  _model other_kore_engine = _model (self st) /\
  fst run' = fst run /\
  trace (snd run') = trace (snd run) /\
  self (snd run') = other_kore_engine.
Proof.
  cbn zeta. split; [reflexivity|].
  split; [right; reflexivity|]. split; [reflexivity|].
  apply (get_tts_reads_voice_and_model "hello" None None None
           (fresh kore_engine
                  (fails_once unavailable (Returns (audio_response "aGVsbG8="))))
           other_kore_engine);
    [|right|]; reflexivity.
Defined.

(** ** Sequences of calls *)

Lemma get_tts_step text speed instructions voice st :
  exists evs,
    snd (get_tts text speed instructions voice st) =
      set_trace st (trace st ++ evs)%list /\
    1 <= calls_made evs <= 2 /\
    seconds_slept evs + 1 = calls_made evs.
Proof.
  rewrite get_tts_run.
  destruct (try_result _) as [e1|a1];
    [destruct (try_result _) as [e2|a2]|];
    cbn [snd]; rewrite <- app_assoc; eexists; (split; [reflexivity|]);
    unfold seconds_slept;
    rewrite calls_made_app, map_app, list_sum_app, calls_made_speed_warning;
    destruct speed; cbn; lia.
Qed.

Lemma seconds_slept_app evs1 evs2 :
  seconds_slept (evs1 ++ evs2) = seconds_slept evs1 + seconds_slept evs2.
Proof. unfold seconds_slept. rewrite map_app, list_sum_app. reflexivity. Qed.

(** X12. A sequence of [get_tts] calls on one engine only appends to the
    trace and leaves the remote service as it is; it makes at least one
    and at most two remote calls for each [get_tts], and the seconds it
    sleeps in all are the number of remote calls beyond the first of each
    [get_tts], so at most one second for each. *)
Theorem run_calls_bounded calls :
  forall st,
    let st' := run_calls calls st in
    exists evs,
      trace st' = (trace st ++ evs)%list /\
      remote st' = remote st /\
      length calls <= calls_made evs <= 2 * length calls /\
      seconds_slept evs + length calls = calls_made evs /\
      seconds_slept evs <= length calls.
Proof.
  induction calls as [|a rest IH]; intros st; cbn [run_calls length].
  - exists []. rewrite app_nil_r. repeat split; cbn; lia.
  - destruct (get_tts_step (arg_text a) (arg_speed a) (arg_instructions a)
                           (arg_voice a) st)
      as (evs1 & Hsnd & Hcalls1 & Hsleep1).
    destruct (IH (snd (get_tts (arg_text a) (arg_speed a) (arg_instructions a)
                               (arg_voice a) st)))
      as (evs2 & Htrace & Hremote & Hcalls2 & Hsleep2 & _).
    cbn zeta in *. rewrite Hsnd in Htrace, Hremote |- *.
    rewrite trace_set_trace, <- app_assoc in Htrace.
    exists (evs1 ++ evs2)%list.
    rewrite calls_made_app, seconds_slept_app.
    split; [exact Htrace|]. split; [exact Hremote|]. lia.
Qed.

(** ** The language list has no duplicate *)

(** X13. No tag occurs twice in the list of [get_supported_langs]. *)
Theorem get_supported_langs_nodup :
  exists langs,
    (forall st, get_supported_langs st = (inr langs, st)) /\ NoDup langs.
Proof.
  eexists. split; [intros st; reflexivity|].
  match goal with
  | |- NoDup ?l =>
      replace l with (nodup string_dec l) by reflexivity;
      apply NoDup_nodup
  end.
Qed.
